(** * XKTimer: a shallow embedding of xktimer.c and its specification

    The timer module of XKLib keeps a registry of pointers to caller-owned
    [xktimer_t] structures and, when polled, compares each timer's deadline
    with the value of [xktimer_clock()].  The embedding below follows
    xktimer.c function by function.  The two loops of the module, in
    [xktimer_wait] and in [xktimer_task], are recursions on a bound on the
    number of iterations.

    Conventions of the embedding.
    - A pointer to a timer is [option addr]; [None] is the C [NULL].
      Dereferencing [NULL] or an address that holds no object is a fault,
      and a faulting computation has no result ([None]).
    - [clock_t] is the platform's signed arithmetic type, the 64-bit
      [long] of the GNU C library the header names, and clock values and
      deadlines are integers of [Z].  A deadline is the sum of a value of
      [xktimer_clock()] and a [uint32_t] timeout, which stays in the range
      of [clock_t] where a tick is more than one clock unit, as on POSIX
      platforms.  [xktimer_periodic] adds the period to a value
      the caller owns, which can be any [clock_t]: there the sum is wrapped
      around to 64 bits, as the compiled code computes it.  [uint8_t] and
      [uint32_t] values are stored as they are passed; the module does no
      arithmetic in these types.
    - [clock()] is the platform's: every call is a separate reading.  The
      world carries the readings the next calls will return
      ([clock_pending]) and the value the clock shows once these are used up
      ([clock_now]).
    - A callback is a function pointer; what the pointed function does is
      given by [run_callback], about which nothing is assumed: it may call
      back into the module, as the examples of xktimer.h do.  Every
      invocation the module makes is recorded in [calls]. *)

From stdpp Require Import gmap list.

Local Open Scope Z_scope.

(** ** Constants of xktimer.h *)

Definition XKTIMER_SINGLE_SHOT : Z := 1.
Definition XKTIMER_PERIODIC : Z := 2.
Definition XKTIMER_DUAL_STATE : Z := 3.
Definition XKTIMER_RESOLUTION : Z := 1000.
Definition XKTIMER_MAX_TIMERS : Z := 30.

(** ** Data model *)

Definition addr := positive.
Definition fnptr := positive.
Definition clock_t := Z.

(** The range of [clock_t], and a sum in [clock_t] as the machine leaves
    it: reduced to 64 bits, two's complement. *)
Definition CLOCK_T_MIN : Z := -9223372036854775808.
Definition CLOCK_T_MAX : Z := 9223372036854775807.
Definition clock_t_wrap (z : Z) : clock_t :=
  (z - CLOCK_T_MIN) `mod` 18446744073709551616 + CLOCK_T_MIN.

(** [xktimer_t], field by field. *)
Record xktimer_t := Timer {
  type : Z;
  enabled : bool;
  state : Z;
  timeout : Z;
  timeout2 : Z;
  ticks : clock_t;
  callback : option fnptr
}.

Definition xktimer_ptr_t := option addr.

Definition set_type (v : Z) (t : xktimer_t) : xktimer_t :=
  Timer v (enabled t) (state t) (timeout t) (timeout2 t) (ticks t) (callback t).
Definition set_enabled (v : bool) (t : xktimer_t) : xktimer_t :=
  Timer (type t) v (state t) (timeout t) (timeout2 t) (ticks t) (callback t).
Definition set_state (v : Z) (t : xktimer_t) : xktimer_t :=
  Timer (type t) (enabled t) v (timeout t) (timeout2 t) (ticks t) (callback t).
Definition set_timeout (v : Z) (t : xktimer_t) : xktimer_t :=
  Timer (type t) (enabled t) (state t) v (timeout2 t) (ticks t) (callback t).
Definition set_timeout2 (v : Z) (t : xktimer_t) : xktimer_t :=
  Timer (type t) (enabled t) (state t) (timeout t) v (ticks t) (callback t).
Definition set_ticks (v : clock_t) (t : xktimer_t) : xktimer_t :=
  Timer (type t) (enabled t) (state t) (timeout t) (timeout2 t) v (callback t).
Definition set_callback (v : option fnptr) (t : xktimer_t) : xktimer_t :=
  Timer (type t) (enabled t) (state t) (timeout t) (timeout2 t) (ticks t) v.

(** The state of the program as far as the module can see or change it. *)
Record world := World {
  timers : gmap addr xktimer_t;
  cells : gmap addr clock_t;
  xktimer_ref : option (list xktimer_ptr_t);
  xktimer_ref_idx : Z;
  clock_now : Z;
  clock_pending : list Z;
  heap_ok : list bool;
  calls : list (fnptr * Z)
}.

Definition with_timers (m : gmap addr xktimer_t) (w : world) : world :=
  World m (cells w) (xktimer_ref w) (xktimer_ref_idx w)
        (clock_now w) (clock_pending w) (heap_ok w) (calls w).
Definition with_cells (m : gmap addr clock_t) (w : world) : world :=
  World (timers w) m (xktimer_ref w) (xktimer_ref_idx w)
        (clock_now w) (clock_pending w) (heap_ok w) (calls w).
Definition with_ref (r : option (list xktimer_ptr_t)) (w : world) : world :=
  World (timers w) (cells w) r (xktimer_ref_idx w)
        (clock_now w) (clock_pending w) (heap_ok w) (calls w).
Definition with_ref_idx (i : Z) (w : world) : world :=
  World (timers w) (cells w) (xktimer_ref w) i
        (clock_now w) (clock_pending w) (heap_ok w) (calls w).
Definition with_clock (c : Z) (p : list Z) (w : world) : world :=
  World (timers w) (cells w) (xktimer_ref w) (xktimer_ref_idx w)
        c p (heap_ok w) (calls w).
Definition with_heap_ok (h : list bool) (w : world) : world :=
  World (timers w) (cells w) (xktimer_ref w) (xktimer_ref_idx w)
        (clock_now w) (clock_pending w) h (calls w).
Definition with_calls (l : list (fnptr * Z)) (w : world) : world :=
  World (timers w) (cells w) (xktimer_ref w) (xktimer_ref_idx w)
        (clock_now w) (clock_pending w) (heap_ok w) l.

(** ** Computations: state passing with faults *)

Definition M (A : Type) : Type := world -> option (A * world).

Definition ret {A} (a : A) : M A := fun w => Some (a, w).
Definition bind {A B} (m : M A) (k : A -> M B) : M B :=
  fun w => match m w with
           | Some (a, w') => k a w'
           | None => None
           end.
Definition fault {A} : M A := fun _ => None.

Declare Scope xk_scope.
Delimit Scope xk_scope with xk.
Notation "'let*' x ':=' c 'in' k" := (bind c (fun x => k))
  (at level 10, x name, c at level 100, k at level 200) : xk_scope.
Notation "c '>>' k" := (bind c (fun _ => k))
  (at level 62, right associativity) : xk_scope.
Local Open Scope xk_scope.

(** [timer->field] as an rvalue. *)
Definition rd {A} (timer : xktimer_ptr_t) (field : xktimer_t -> A) : M A :=
  fun w => match timer with
           | None => None
           | Some p => match timers w !! p with
                       | Some t => Some (field t, w)
                       | None => None
                       end
           end.

(** [timer->field = v], given as the update of the structure. *)
Definition wr (timer : xktimer_ptr_t) (upd : xktimer_t -> xktimer_t) : M unit :=
  fun w => match timer with
           | None => None
           | Some p => match timers w !! p with
                       | Some t => Some (tt, with_timers (<[p := upd t]> (timers w)) w)
                       | None => None
                       end
           end.

(** The C library's [clock()]. *)
Definition clock : M clock_t :=
  fun w => match clock_pending w with
           | [] => Some (clock_now w, w)
           | c :: rest => Some (c, with_clock c rest w)
           end.

(** The outcome of the next [malloc] or [realloc]: [true] when it returns
    memory.  Once the recorded outcomes are used up, allocation succeeds. *)
Definition alloc : M bool :=
  fun w => match heap_ok w with
           | [] => Some (true, w)
           | b :: rest => Some (b, with_heap_ok rest w)
           end.

Definition get_ref : M (option (list xktimer_ptr_t)) := fun w => Some (xktimer_ref w, w).
Definition put_ref (r : option (list xktimer_ptr_t)) : M unit :=
  fun w => Some (tt, with_ref r w).
Definition get_ref_idx : M Z := fun w => Some (xktimer_ref_idx w, w).
Definition put_ref_idx (i : Z) : M unit := fun w => Some (tt, with_ref_idx i w).

(** [*ticks] for the [clock_t] variable handed to [xktimer_periodic]. *)
Definition rd_cell (ticks : option addr) : M clock_t :=
  fun w => match ticks with
           | None => None
           | Some r => match cells w !! r with
                       | Some v => Some (v, w)
                       | None => None
                       end
           end.

Definition wr_cell (ticks : option addr) (v : clock_t) : M unit :=
  fun w => match ticks with
           | None => None
           | Some r => match cells w !! r with
                       | Some _ => Some (tt, with_cells (<[r := v]> (cells w)) w)
                       | None => None
                       end
           end.

(** [xktimer_ref[i] = v]: a write through a null array pointer or outside
    the block it points to is a fault. *)
Definition store_ref (i : Z) (v : xktimer_ptr_t) : M unit :=
  fun w => match xktimer_ref w with
           | None => None
           | Some l =>
               if (0 <=? i) && (i <? Z.of_nat (length l))
               then Some (tt, with_ref (Some (<[Z.to_nat i := v]> l)) w)
               else None
           end.

(** [xktimer_ref[i]] as an rvalue: reading through a null array pointer or
    outside the block it points to is a fault. *)
Definition load_ref (i : Z) : M xktimer_ptr_t :=
  fun w => match xktimer_ref w with
           | None => None
           | Some l =>
               if (0 <=? i) && (i <? Z.of_nat (length l))
               then match l !! Z.to_nat i with
                    | Some v => Some (v, w)
                    | None => None
                    end
               else None
           end.

(** The world with the timer at [p] replaced. *)
Definition put (p : addr) (t : xktimer_t) (w : world) : world :=
  with_timers (<[p := t]> (timers w)) w.

(** ** Concrete data for the examples *)

(** A timer structure as the caller declares it, before registration. *)
Definition blank : xktimer_t := Timer 0 false 0 0 0 0 None.

(** A program with [n] timer structures at addresses 1 to [n], one
    [clock_t] variable at address 1, the registry array of the
    [XKTIMER_NO_MALLOC] build, and the clock at zero. *)
Definition boot (n : nat) : world :=
  World (list_to_map (map (fun i => (Pos.of_nat i, blank)) (seq 1 n)))
        {[ 1%positive := 0 ]}
        (Some (replicate 30 None)) 0 0 [] [] [].

(** The registry after thirty timers of the same kind were registered at
    clock zero, with one more structure declared at address 31. *)
Definition full_registry (ty tmo : Z) : world :=
  World (list_to_map
           ((31%positive, blank) ::
            map (fun i => (Pos.of_nat i, Timer ty false 0 tmo 0 tmo None)) (seq 1 30)))
        {[ 1%positive := 0 ]}
        (Some (map (fun i => Some (Pos.of_nat i)) (seq 1 30))) 30 0 [] [] [].

(** The timer at address 1 as [xktimer_start] leaves it when the clock shows
    zero: a single-shot timer of 1000 ms, and a dual-state timer of 700 and
    300 ms, both with the callback at 9. *)
Definition single_shot_started : world :=
  put 1%positive (Timer XKTIMER_SINGLE_SHOT true 0 1000 0 1000 (Some 9%positive)) (boot 1).
Definition dual_state_started : world :=
  put 1%positive (Timer XKTIMER_DUAL_STATE true 0 700 300 700 (Some 9%positive)) (boot 1).

(** The dual-state timer at address 1 in its second state, as
    [xktimer_handle] leaves it at tick 700. *)
Definition dual_state_second : world :=
  put 1%positive (Timer XKTIMER_DUAL_STATE true 1 700 300 1000 (Some 9%positive)) (boot 1).

(** The build that allocates the array: one timer structure, and the
    registry as [xktimer_init] leaves it when [malloc] fails, and when it
    succeeds. *)
Definition no_registry : world :=
  World {[ 1%positive := blank ]} {[ 1%positive := 0 ]} None 0 0 [] [] [].
Definition fresh_registry : world :=
  World {[ 1%positive := blank ]} {[ 1%positive := 0 ]} (Some [None]) 0 0 [] [] [].

(** Two running timers in the registry, in this order: the dual-state timer
    at address 1 and the single-shot timer at address 2. *)
Definition two_timers : world :=
  World {[ 1%positive := Timer XKTIMER_DUAL_STATE true 0 700 300 700 (Some 9%positive);
           2%positive := Timer XKTIMER_SINGLE_SHOT true 0 1000 0 1000 (Some 8%positive) ]}
        {[ 1%positive := 0 ]}
        (Some (Some 1%positive :: Some 2%positive :: replicate 28 None)) 2 0 [] [] [].

(** A callback that returns without touching anything the module sees. *)
Definition quiet : fnptr -> Z -> world -> option world := fun _ _ w => Some w.

(** ** The module, parameterised by what the platform and the build fix *)

Section XKTimer.

(** [CLOCKS_PER_SEC] of the platform's <time.h>. *)
Variable CLOCKS_PER_SEC : Z.

(** Whether the module is built with [XKTIMER_NO_MALLOC] defined. *)
Variable XKTIMER_NO_MALLOC : bool.

(** What calling the function behind a callback pointer with an argument
    does to the world; [None] when the call does not return. *)
Variable run_callback : fnptr -> Z -> world -> option world.

(** [timer->callback(arg)]. *)
Definition call (f : fnptr) (arg : Z) : M unit :=
  fun w => match run_callback f arg (with_calls (calls w ++ [(f, arg)]) w) with
           | Some w' => Some (tt, w')
           | None => None
           end.

Definition xktimer_init : M unit :=
  put_ref_idx 0 >>
  if XKTIMER_NO_MALLOC then ret tt
  else
    let* ok := alloc in
    put_ref (if ok then Some [None] else None).

Definition xktimer_assert (timer : xktimer_ptr_t) : bool :=
  match timer with
  | Some _ => true
  | None => false
  end.

(** In the build without [XKTIMER_NO_MALLOC], [sizeof(xktimer_ref)] is the
    size of a pointer, so [ref_size] is 1.  The pointer returned by the
    second [malloc] is stored in the slot and overwritten by the next
    statement: its outcome is consumed and the write access is kept. *)
Definition xktimer_add_ptr (timer : xktimer_ptr_t) : M bool :=
  if XKTIMER_NO_MALLOC then
    let* i := get_ref_idx in
    store_ref i timer >>
    put_ref_idx (i + 1) >>
    ret true
  else
    let* r := get_ref in
    match r with
    | None => ret false
    | Some l =>
        let ref_size := 1 in
        let* i := get_ref_idx in
        (if ref_size <=? i + 1 then
           let* ok := alloc in
           put_ref (if ok then Some (resize (Z.to_nat (i + 1)) None l) else None)
         else ret tt) >>
        let* _ := alloc in
        store_ref i None >>
        store_ref i timer >>
        put_ref_idx (i + 1) >>
        ret true
    end.

(** [clock() / (CLOCKS_PER_SEC / XKTIMER_RESOLUTION)]; C division truncates,
    and dividing by zero is a fault. *)
Definition xktimer_clock : M clock_t :=
  let* c := clock in
  let d := CLOCKS_PER_SEC ÷ XKTIMER_RESOLUTION in
  if d =? 0 then fault else ret (c ÷ d).

Definition xktimer_update_ticks (timer : xktimer_ptr_t) : M unit :=
  if negb (xktimer_assert timer) then ret tt
  else
    let* st := rd timer state in
    if st =? 0 then
      let* now := xktimer_clock in
      let* t := rd timer timeout in
      wr timer (set_ticks (now + t))
    else
      let* now := xktimer_clock in
      let* t := rd timer timeout2 in
      wr timer (set_ticks (now + t)).

Definition xktimer_add (timer : xktimer_ptr_t) (ty : Z) (tmo : Z)
    (cb : option fnptr) : M bool :=
  let* i := get_ref_idx in
  if negb (xktimer_assert timer) || (XKTIMER_MAX_TIMERS <=? i) then ret false
  else
    wr timer (set_type ty) >>
    wr timer (set_enabled false) >>
    wr timer (set_state 0) >>
    wr timer (set_timeout tmo) >>
    wr timer (set_timeout2 0) >>
    wr timer (set_callback cb) >>
    xktimer_update_ticks timer >>
    xktimer_add_ptr timer >>
    ret true.

Definition xktimer_add_dual (timer : xktimer_ptr_t) (tmo tmo2 : Z)
    (cb : option fnptr) : M bool :=
  let* i := get_ref_idx in
  if negb (xktimer_assert timer) || (XKTIMER_MAX_TIMERS <=? i) then ret false
  else
    wr timer (set_type XKTIMER_DUAL_STATE) >>
    wr timer (set_enabled false) >>
    wr timer (set_state 0) >>
    wr timer (set_timeout tmo) >>
    wr timer (set_timeout2 tmo2) >>
    wr timer (set_callback cb) >>
    xktimer_update_ticks timer >>
    xktimer_add_ptr timer >>
    ret true.

Definition xktimer_timeout (timer : xktimer_ptr_t) : M Z :=
  if negb (xktimer_assert timer) then ret 0 else rd timer timeout.

Definition xktimer_timeout2 (timer : xktimer_ptr_t) : M Z :=
  if negb (xktimer_assert timer) then ret 0 else rd timer timeout2.

Definition xktimer_next_timeout (timer : xktimer_ptr_t) : M clock_t :=
  if negb (xktimer_assert timer) then ret 0
  else
    let* tk := rd timer ticks in
    let* c := clock in
    ret (tk - c).

Definition xktimer_set_timeout (timer : xktimer_ptr_t) (tmo : Z) : M unit :=
  if negb (xktimer_assert timer) then ret tt
  else
    wr timer (set_timeout tmo) >>
    xktimer_update_ticks timer.

Definition xktimer_set_timeout_dual (timer : xktimer_ptr_t) (tmo tmo2 : Z) : M unit :=
  if negb (xktimer_assert timer) then ret tt
  else
    wr timer (set_state 0) >>
    wr timer (set_timeout tmo) >>
    wr timer (set_timeout2 tmo2) >>
    xktimer_update_ticks timer.

Definition xktimer_start (timer : xktimer_ptr_t) : M unit :=
  if negb (xktimer_assert timer) then ret tt
  else
    wr timer (set_enabled true) >>
    wr timer (set_state 0) >>
    xktimer_update_ticks timer.

Definition xktimer_stop (timer : xktimer_ptr_t) : M unit :=
  if negb (xktimer_assert timer) then ret tt
  else wr timer (set_enabled false).

Definition xktimer_running (timer : xktimer_ptr_t) : M bool :=
  if negb (xktimer_assert timer) then ret false else rd timer enabled.

Definition xktimer_periodic (ticks : option addr) (period : Z) : M bool :=
  let* now := xktimer_clock in
  let* tk := rd_cell ticks in
  if clock_t_wrap (tk + period) <=? now then
    let* c := xktimer_clock in
    wr_cell ticks c >>
    ret true
  else ret false.

Definition xktimer_handle (timer : xktimer_ptr_t) : M unit :=
  if negb (xktimer_assert timer) then ret tt
  else
    let* en := rd timer enabled in
    if negb en then ret tt
    else
      let* now := xktimer_clock in
      let* tk := rd timer ticks in
      if tk <=? now then
        let* ty := rd timer type in
        (if ty =? XKTIMER_SINGLE_SHOT then wr timer (set_enabled false)
         else if ty =? XKTIMER_PERIODIC then ret tt
         else if ty =? XKTIMER_DUAL_STATE then
           let* st := rd timer state in
           if st =? 0 then wr timer (set_state 1) else wr timer (set_state 0)
         else ret tt) >>
        xktimer_update_ticks timer >>
        let* cb := rd timer callback in
        match cb with
        | Some f =>
            let* st := rd timer state in
            call f st
        | None => ret tt
        end
      else ret tt.

(** ** Drivers: the host program's side *)

(** The operations that take a timer, as steps of one timer's life. *)
Inductive op :=
| OpAdd (ty tmo : Z) (cb : option fnptr)
| OpAddDual (tmo tmo2 : Z) (cb : option fnptr)
| OpUpdateTicks
| OpSetTimeout (tmo : Z)
| OpSetTimeoutDual (tmo tmo2 : Z)
| OpStart
| OpStop
| OpHandle.

Definition run_op (o : op) (timer : xktimer_ptr_t) : M unit :=
  match o with
  | OpAdd ty tmo cb => xktimer_add timer ty tmo cb >> ret tt
  | OpAddDual tmo tmo2 cb => xktimer_add_dual timer tmo tmo2 cb >> ret tt
  | OpUpdateTicks => xktimer_update_ticks timer
  | OpSetTimeout tmo => xktimer_set_timeout timer tmo
  | OpSetTimeoutDual tmo tmo2 => xktimer_set_timeout_dual timer tmo tmo2
  | OpStart => xktimer_start timer
  | OpStop => xktimer_stop timer
  | OpHandle => xktimer_handle timer
  end.

(** No callback changes the timer structure at [p]. *)
Definition callbacks_keep (p : addr) : Prop :=
  forall f a w w', run_callback f a w = Some w' -> timers w' !! p = timers w !! p.

(** The world at the moment [xktimer_clock()] shows [t] and keeps showing
    it for the duration of a call. *)
Definition at_tick (t : Z) (w : world) : world :=
  with_clock (t * (CLOCKS_PER_SEC ÷ XKTIMER_RESOLUTION)) [] w.

(** A main loop that calls [xktimer_handle] once at each of the ticks [ts];
    the result lists every callback invocation as (tick, argument). *)
Fixpoint poll_ticks (timer : xktimer_ptr_t) (ts : list Z) (w : world)
    : option (list (Z * Z) * world) :=
  match ts with
  | [] => Some ([], w)
  | t :: rest =>
      match xktimer_handle timer (at_tick t w) with
      | None => None
      | Some (_, w') =>
          let fired := map (fun c => (t, snd c)) (drop (length (calls w)) (calls w')) in
          match poll_ticks timer rest w' with
          | None => None
          | Some (l, w'') => Some (fired ++ l, w'')
          end
      end
  end.

(** The [main] of the dual-state example of xktimer.h, with the timer at
    address 1 and [xktimer_handle] called on it once per tick up to tick
    [n], which is what the example's loop does to its one timer. *)
Definition dual_state_example (tmo tmo2 : Z) (f : fnptr) (n : Z) : M (list (Z * Z)) :=
  xktimer_add_dual (Some 1%positive) tmo tmo2 (Some f) >>
  xktimer_start (Some 1%positive) >>
  poll_ticks (Some 1%positive) (seqZ 1 n).

(** A main loop that calls [xktimer_periodic] once at each of the ticks
    [ts] and collects what it returns. *)
Fixpoint periodic_polls (ticks : option addr) (period : Z) (ts : list Z) (w : world)
    : option (list bool * world) :=
  match ts with
  | [] => Some ([], w)
  | t :: rest =>
      match xktimer_periodic ticks period (at_tick t w) with
      | None => None
      | Some (b, w') =>
          match periodic_polls ticks period rest w' with
          | None => None
          | Some (l, w'') => Some (b :: l, w'')
          end
      end
  end.

(** [xktimer_add] on each of the timers [ps] in turn, with the same type,
    timeout and no callback; the result lists what the calls return. *)
Fixpoint register_all (ps : list addr) (ty tmo : Z) : M (list bool) :=
  match ps with
  | [] => ret []
  | p :: rest =>
      let* b := xktimer_add (Some p) ty tmo None in
      let* bs := register_all rest ty tmo in
      ret (b :: bs)
  end.

(** ** The two loops of the module

    A loop of the source is a recursion on the number of iterations it may
    still take; a loop that has not ended when that number is used up has
    no result, like a fault. *)

(** The loop of [xktimer_wait]: [while (xktimer_clock() < timestamp + ms)].
    The body is empty: it is compiled only where the macro
    [timer_wait_task] is defined, which neither xktimer.h nor xktimer.c
    does, and the embedding is of the build without it. *)
Fixpoint xktimer_wait_loop (fuel : nat) (until : clock_t) : M unit :=
  match fuel with
  | O => fault
  | S n =>
      let* now := xktimer_clock in
      if now <? until then xktimer_wait_loop n until else ret tt
  end.

Definition xktimer_wait (fuel : nat) (ms : Z) : M unit :=
  let* timestamp := xktimer_clock in
  xktimer_wait_loop fuel (timestamp + ms).

(** The loop of [xktimer_task], entered with the counter at [i]; the count
    [xktimer_ref_idx] is read again before every iteration, as in the
    source. *)
Fixpoint xktimer_task_from (fuel : nat) (i : Z) : M unit :=
  match fuel with
  | O => fault
  | S n =>
      let* idx := get_ref_idx in
      if i <? idx then
        let* timer := load_ref i in
        xktimer_handle timer >>
        xktimer_task_from n (i + 1)
      else ret tt
  end.

Definition xktimer_task (fuel : nat) : M unit := xktimer_task_from fuel 0.

(** [xktimer_handle] on each pointer of a list, in order. *)
Fixpoint handle_all (l : list xktimer_ptr_t) : M unit :=
  match l with
  | [] => ret tt
  | timer :: rest => xktimer_handle timer >> handle_all rest
  end.

(** No callback changes the registry or its count. *)
Definition callbacks_keep_registry : Prop :=
  forall f a w w', run_callback f a w = Some w' ->
    xktimer_ref w' = xktimer_ref w /\ xktimer_ref_idx w' = xktimer_ref_idx w.

(** The callback [f] returns and leaves the world as it found it. *)
Definition callback_quiet (f : fnptr) : Prop :=
  forall a w, run_callback f a w = Some w.

(** A computation that leaves the part [view] of the world as it is. *)
Definition preserves {B A} (view : world -> B) (m : M A) : Prop :=
  forall w a w', m w = Some (a, w') -> view w' = view w.

(** The registry as [xktimer_task] sees it: the array and the count. *)
Definition registry (w : world) : option (list xktimer_ptr_t) * Z :=
  (xktimer_ref w, xktimer_ref_idx w).

(** A computation that leaves every timer structure as it is. *)
Definition keeps_timers {A} (m : M A) : Prop :=
  forall w a w', m w = Some (a, w') -> timers w' = timers w.

(** ** Basic facts about the primitives *)

Lemma bind_Some {A B} (m : M A) (k : A -> M B) w a w1 :
  m w = Some (a, w1) -> bind m k w = k a w1.
Proof. intros H. unfold bind. by rewrite H. Qed.

Lemma rd_Some {A} p (f : xktimer_t -> A) w t :
  timers w !! p = Some t -> rd (Some p) f w = Some (f t, w).
Proof. intros H. unfold rd. by rewrite H. Qed.

Lemma wr_Some p u w t :
  timers w !! p = Some t -> wr (Some p) u w = Some (tt, put p (u t) w).
Proof. intros H. unfold wr. by rewrite H. Qed.

Lemma put_lookup p t w : timers (put p t w) !! p = Some t.
Proof. unfold put. simpl. apply lookup_insert_eq. Qed.

Lemma put_put p a b w : put p b (put p a w) = put p b w.
Proof. unfold put, with_timers. simpl. by rewrite insert_insert_eq. Qed.

Lemma clock_frame w c w1 :
  clock w = Some (c, w1) -> exists c' pend, w1 = with_clock c' pend w.
Proof.
  unfold clock. destruct w as [tm ce rf ix cn cp ho cl]; simpl.
  destruct cp as [|c0 rest]; intros [= <- <-].
  - by exists cn, [].
  - by exists c0, rest.
Qed.

Lemma xktimer_clock_inv w now w1 :
  xktimer_clock w = Some (now, w1) ->
  CLOCKS_PER_SEC ÷ XKTIMER_RESOLUTION <> 0 /\
  exists c, clock w = Some (c, w1) /\ now = c ÷ (CLOCKS_PER_SEC ÷ XKTIMER_RESOLUTION).
Proof.
  unfold xktimer_clock, bind. destruct (clock w) as [[c w0]|]; [|done].
  destruct (Z.eqb_spec (CLOCKS_PER_SEC ÷ XKTIMER_RESOLUTION) 0) as [E|E]; [done|].
  intros [= <- <-]. eauto.
Qed.

Lemma xktimer_clock_frame w now w1 :
  xktimer_clock w = Some (now, w1) -> exists c pend, w1 = with_clock c pend w.
Proof.
  intros H. apply xktimer_clock_inv in H as (_ & c & Hc & _).
  by apply clock_frame in Hc.
Qed.

Lemma xktimer_clock_timers w now w1 :
  xktimer_clock w = Some (now, w1) -> timers w1 = timers w.
Proof. intros H. apply xktimer_clock_frame in H as (c & pend & ->). done. Qed.

Lemma xktimer_clock_put p t w now w1 :
  xktimer_clock w = Some (now, w1) ->
  xktimer_clock (put p t w) = Some (now, put p t w1).
Proof.
  unfold xktimer_clock, bind, clock. simpl.
  destruct (clock_pending w) as [|c rest]; simpl;
    destruct (_ =? 0); simpl; try discriminate; intros [= <- <-]; reflexivity.
Qed.

Lemma xktimer_clock_at_tick t w :
  CLOCKS_PER_SEC ÷ XKTIMER_RESOLUTION <> 0 ->
  xktimer_clock (at_tick t w) = Some (t, at_tick t w).
Proof.
  intros Hd. unfold xktimer_clock, bind, clock, at_tick. simpl.
  destruct (Z.eqb_spec (CLOCKS_PER_SEC ÷ XKTIMER_RESOLUTION) 0) as [E|E]; [done|].
  unfold ret. by rewrite Z.quot_mul.
Qed.

Ltac wr_step :=
  erewrite bind_Some by (apply wr_Some; first [eassumption | apply put_lookup]);
  rewrite ?put_put.
Ltac rd_step :=
  erewrite bind_Some by (apply rd_Some; first [eassumption | apply put_lookup]).

Lemma xktimer_update_ticks_spec p t w now w1 :
  timers w !! p = Some t ->
  xktimer_clock w = Some (now, w1) ->
  xktimer_update_ticks (Some p) w =
    Some (tt, put p (set_ticks (now + (if state t =? 0 then timeout t else timeout2 t)) t) w1).
Proof.
  intros Ht Hc. unfold xktimer_update_ticks. cbn [xktimer_assert negb].
  rd_step.
  assert (Ht1 : timers w1 !! p = Some t) by (by rewrite (xktimer_clock_timers _ _ _ Hc)).
  destruct (state t =? 0);
    rewrite (bind_Some _ _ _ _ _ Hc); rd_step; by rewrite (wr_Some _ _ _ _ Ht1).
Qed.

Lemma xktimer_start_spec p t w now w1 :
  timers w !! p = Some t ->
  xktimer_clock w = Some (now, w1) ->
  xktimer_start (Some p) w =
    Some (tt, put p (Timer (type t) true 0 (timeout t) (timeout2 t)
                           (now + timeout t) (callback t)) w1).
Proof.
  intros Ht Hc. unfold xktimer_start. cbn [xktimer_assert negb].
  do 2 wr_step.
  erewrite xktimer_update_ticks_spec;
    [| apply put_lookup | by apply xktimer_clock_put].
  by rewrite put_put.
Qed.

Lemma xktimer_stop_spec p t w :
  timers w !! p = Some t ->
  xktimer_stop (Some p) w =
    Some (tt, put p (Timer (type t) false (state t) (timeout t) (timeout2 t)
                           (ticks t) (callback t)) w).
Proof. intros Ht. unfold xktimer_stop. cbn [xktimer_assert negb]. by erewrite wr_Some. Qed.

Lemma xktimer_set_timeout_spec p t w tmo now w1 :
  timers w !! p = Some t ->
  xktimer_clock w = Some (now, w1) ->
  xktimer_set_timeout (Some p) tmo w =
    Some (tt, put p (Timer (type t) (enabled t) (state t) tmo (timeout2 t)
                           (now + (if state t =? 0 then tmo else timeout2 t))
                           (callback t)) w1).
Proof.
  intros Ht Hc. unfold xktimer_set_timeout. cbn [xktimer_assert negb].
  wr_step.
  erewrite xktimer_update_ticks_spec;
    [| apply put_lookup | by apply xktimer_clock_put].
  by rewrite put_put.
Qed.

Lemma xktimer_set_timeout_dual_spec p t w tmo tmo2 now w1 :
  timers w !! p = Some t ->
  xktimer_clock w = Some (now, w1) ->
  xktimer_set_timeout_dual (Some p) tmo tmo2 w =
    Some (tt, put p (Timer (type t) (enabled t) 0 tmo tmo2 (now + tmo) (callback t)) w1).
Proof.
  intros Ht Hc. unfold xktimer_set_timeout_dual. cbn [xktimer_assert negb].
  do 3 wr_step.
  erewrite xktimer_update_ticks_spec;
    [| apply put_lookup | by apply xktimer_clock_put].
  by rewrite put_put.
Qed.

Lemma keeps_timers_ret {A} (a : A) : keeps_timers (ret a).
Proof. by intros w a' w' [= <- <-]. Qed.

Lemma keeps_timers_bind {A B} (m : M A) (k : A -> M B) :
  keeps_timers m -> (forall a, keeps_timers (k a)) -> keeps_timers (bind m k).
Proof.
  intros Hm Hk w b w'. unfold bind.
  destruct (m w) as [[a w0]|] eqn:E; [|done].
  intros H. rewrite (Hk _ _ _ _ H). eauto.
Qed.

Lemma keeps_timers_alloc : keeps_timers alloc.
Proof. intros w a w'. unfold alloc. by destruct (heap_ok w); intros [= <- <-]. Qed.

Lemma keeps_timers_store_ref i v : keeps_timers (store_ref i v).
Proof.
  intros w a w'. unfold store_ref. destruct (xktimer_ref w); [|done].
  destruct (_ && _); [|done]. by intros [= <- <-].
Qed.

Lemma xktimer_add_ptr_timers timer : keeps_timers (xktimer_add_ptr timer).
Proof.
  unfold xktimer_add_ptr.
  assert (Hput : forall r, keeps_timers (put_ref r)) by (by intros r w a w' [= <- <-]).
  assert (Hidx : forall i, keeps_timers (put_ref_idx i)) by (by intros r w a w' [= <- <-]).
  assert (Hgi : keeps_timers get_ref_idx) by (by intros w a w' [= <- <-]).
  assert (Hgr : keeps_timers get_ref) by (by intros w a w' [= <- <-]).
  destruct XKTIMER_NO_MALLOC.
  - repeat (apply keeps_timers_bind; [|intros]);
      auto using keeps_timers_ret, keeps_timers_store_ref.
  - apply keeps_timers_bind; [done|]. intros [l|]; [|apply keeps_timers_ret].
    repeat (apply keeps_timers_bind; [|intros]);
      auto using keeps_timers_ret, keeps_timers_store_ref, keeps_timers_alloc.
    case_match; [|apply keeps_timers_ret].
    apply keeps_timers_bind; [apply keeps_timers_alloc|done].
Qed.

Lemma xktimer_add_spec p t w ty tmo cb now w1 :
  timers w !! p = Some t ->
  xktimer_ref_idx w < XKTIMER_MAX_TIMERS ->
  xktimer_clock w = Some (now, w1) ->
  xktimer_add (Some p) ty tmo cb w =
    bind (xktimer_add_ptr (Some p)) (fun _ => ret true)
         (put p (Timer ty false 0 tmo 0 (now + tmo) cb) w1).
Proof.
  intros Ht Hi Hc. unfold xktimer_add.
  unfold bind at 1. unfold get_ref_idx at 1. cbn [xktimer_assert negb orb].
  destruct (Z.leb_spec XKTIMER_MAX_TIMERS (xktimer_ref_idx w)); [lia|].
  do 6 wr_step.
  erewrite bind_Some;
    [| erewrite xktimer_update_ticks_spec;
       [reflexivity | apply put_lookup | by apply xktimer_clock_put]].
  by rewrite put_put.
Qed.

Lemma xktimer_add_dual_spec p t w tmo tmo2 cb now w1 :
  timers w !! p = Some t ->
  xktimer_ref_idx w < XKTIMER_MAX_TIMERS ->
  xktimer_clock w = Some (now, w1) ->
  xktimer_add_dual (Some p) tmo tmo2 cb w =
    bind (xktimer_add_ptr (Some p)) (fun _ => ret true)
         (put p (Timer XKTIMER_DUAL_STATE false 0 tmo tmo2 (now + tmo) cb) w1).
Proof.
  intros Ht Hi Hc. unfold xktimer_add_dual.
  unfold bind at 1. unfold get_ref_idx at 1. cbn [xktimer_assert negb orb].
  destruct (Z.leb_spec XKTIMER_MAX_TIMERS (xktimer_ref_idx w)); [lia|].
  do 6 wr_step.
  erewrite bind_Some;
    [| erewrite xktimer_update_ticks_spec;
       [reflexivity | apply put_lookup | by apply xktimer_clock_put]].
  by rewrite put_put.
Qed.

Lemma xktimer_add_full timer ty tmo cb w :
  XKTIMER_MAX_TIMERS <= xktimer_ref_idx w ->
  xktimer_add timer ty tmo cb w = Some (false, w).
Proof.
  intros Hi. unfold xktimer_add, bind, get_ref_idx.
  destruct (Z.leb_spec XKTIMER_MAX_TIMERS (xktimer_ref_idx w)); [|lia].
  by rewrite orb_true_r.
Qed.

Lemma xktimer_add_dual_full timer tmo tmo2 cb w :
  XKTIMER_MAX_TIMERS <= xktimer_ref_idx w ->
  xktimer_add_dual timer tmo tmo2 cb w = Some (false, w).
Proof.
  intros Hi. unfold xktimer_add_dual, bind, get_ref_idx.
  destruct (Z.leb_spec XKTIMER_MAX_TIMERS (xktimer_ref_idx w)); [|lia].
  by rewrite orb_true_r.
Qed.

Lemma xktimer_handle_disabled p t w :
  timers w !! p = Some t -> enabled t = false ->
  xktimer_handle (Some p) w = Some (tt, w).
Proof.
  intros Ht He. unfold xktimer_handle. cbn [xktimer_assert negb].
  rd_step. by rewrite He.
Qed.

Lemma xktimer_handle_early p t w now w1 :
  timers w !! p = Some t -> enabled t = true ->
  xktimer_clock w = Some (now, w1) -> now < ticks t ->
  xktimer_handle (Some p) w = Some (tt, w1).
Proof.
  intros Ht He Hc Hlt. unfold xktimer_handle. cbn [xktimer_assert negb].
  rd_step. rewrite He. cbn [negb].
  rewrite (bind_Some _ _ _ _ _ Hc).
  assert (Ht1 : timers w1 !! p = Some t) by (by rewrite (xktimer_clock_timers _ _ _ Hc)).
  rd_step.
  by destruct (Z.leb_spec (ticks t) now); [lia|].
Qed.

Ltac handle_enter Ht He Hc Hle :=
  unfold xktimer_handle; cbn [xktimer_assert negb];
  rd_step; rewrite He; cbn [negb];
  rewrite (bind_Some _ _ _ _ _ Hc);
  rd_step;
  match goal with
  | |- context [?a <=? ?b] => destruct (Z.leb_spec a b); [|lia]
  end;
  rd_step.

Ltac handle_leave :=
  erewrite bind_Some;
    [| erewrite xktimer_update_ticks_spec;
       [reflexivity
       | first [eassumption | apply put_lookup]
       | first [eassumption | by apply xktimer_clock_put]]];
  rewrite ?put_put; rd_step.

Ltac handle_close Hty :=
  unfold set_ticks, set_enabled, set_state;
  cbn [type enabled state timeout timeout2 ticks callback];
  rewrite ?Hty;
  match goal with
  | |- context [callback ?t] => destruct (callback t) as [?f|]
  end; [rd_step|]; reflexivity.

Lemma xktimer_handle_fire_single_shot p t w now w1 now' w2 :
  timers w !! p = Some t -> enabled t = true ->
  type t = XKTIMER_SINGLE_SHOT ->
  xktimer_clock w = Some (now, w1) -> ticks t <= now ->
  xktimer_clock w1 = Some (now', w2) ->
  xktimer_handle (Some p) w =
    let t' := Timer (type t) false (state t) (timeout t) (timeout2 t)
                    (now' + (if state t =? 0 then timeout t else timeout2 t))
                    (callback t) in
    match callback t with
    | Some f => call f (state t) (put p t' w2)
    | None => Some (tt, put p t' w2)
    end.
Proof.
  intros Ht He Hty Hc Hle Hc'.
  assert (Ht1 : timers w1 !! p = Some t) by (by rewrite (xktimer_clock_timers _ _ _ Hc)).
  handle_enter Ht He Hc Hle.
  rewrite Hty. cbn [Z.eqb XKTIMER_SINGLE_SHOT Pos.eqb].
  wr_step. handle_leave.
  handle_close Hty.
Qed.

Lemma xktimer_handle_fire_dual p t w now w1 now' w2 :
  timers w !! p = Some t -> enabled t = true ->
  type t = XKTIMER_DUAL_STATE ->
  xktimer_clock w = Some (now, w1) -> ticks t <= now ->
  xktimer_clock w1 = Some (now', w2) ->
  xktimer_handle (Some p) w =
    let st' := if state t =? 0 then 1 else 0 in
    let t' := Timer (type t) true st' (timeout t) (timeout2 t)
                    (now' + (if state t =? 0 then timeout2 t else timeout t))
                    (callback t) in
    match callback t with
    | Some f => call f st' (put p t' w2)
    | None => Some (tt, put p t' w2)
    end.
Proof.
  intros Ht He Hty Hc Hle Hc'.
  assert (Ht1 : timers w1 !! p = Some t) by (by rewrite (xktimer_clock_timers _ _ _ Hc)).
  handle_enter Ht He Hc Hle.
  rewrite Hty. cbn [Z.eqb XKTIMER_SINGLE_SHOT XKTIMER_PERIODIC XKTIMER_DUAL_STATE Pos.eqb].
  erewrite bind_Some with (w1 := put p (set_state (if state t =? 0 then 1 else 0) t) w1);
    [| rd_step; destruct (state t =? 0); by erewrite wr_Some].
  handle_leave.
  rewrite <- He.
  destruct (state t =? 0) eqn:Est; cbn [state set_state Z.eqb]; handle_close Hty.
Qed.

Lemma xktimer_handle_fire_other p t w now w1 now' w2 :
  timers w !! p = Some t -> enabled t = true ->
  type t <> XKTIMER_SINGLE_SHOT -> type t <> XKTIMER_DUAL_STATE ->
  xktimer_clock w = Some (now, w1) -> ticks t <= now ->
  xktimer_clock w1 = Some (now', w2) ->
  xktimer_handle (Some p) w =
    let t' := Timer (type t) true (state t) (timeout t) (timeout2 t)
                    (now' + (if state t =? 0 then timeout t else timeout2 t))
                    (callback t) in
    match callback t with
    | Some f => call f (state t) (put p t' w2)
    | None => Some (tt, put p t' w2)
    end.
Proof.
  intros Ht He Hty1 Hty3 Hc Hle Hc'.
  assert (Ht1 : timers w1 !! p = Some t) by (by rewrite (xktimer_clock_timers _ _ _ Hc)).
  handle_enter Ht He Hc Hle.
  destruct (Z.eqb_spec (type t) XKTIMER_SINGLE_SHOT); [done|].
  destruct (Z.eqb_spec (type t) XKTIMER_DUAL_STATE); [done|].
  assert (Hu : forall w0, (if type t =? XKTIMER_PERIODIC then ret tt else ret tt) w0
                          = Some (tt, w0)) by (intros; by destruct (_ =? _)).
  erewrite bind_Some by apply Hu.
  handle_leave. rewrite <- He. handle_close He.
Qed.

Lemma bind_None {A B} (m : M A) (k : A -> M B) w :
  m w = None -> bind m k w = None.
Proof. intros H. unfold bind. by rewrite H. Qed.

Lemma bind_inv {A B} (m : M A) (k : A -> M B) w b w' :
  bind m k w = Some (b, w') ->
  exists a w1, m w = Some (a, w1) /\ k a w1 = Some (b, w').
Proof. unfold bind. destruct (m w) as [[a w1]|]; [eauto|done]. Qed.

Lemma xktimer_clock_put_None p t w :
  xktimer_clock w = None -> xktimer_clock (put p t w) = None.
Proof.
  unfold xktimer_clock, bind, clock. simpl.
  destruct (clock_pending w); simpl; by destruct (_ =? 0).
Qed.


Lemma xktimer_update_ticks_no_clock p t w :
  timers w !! p = Some t -> xktimer_clock w = None ->
  xktimer_update_ticks (Some p) w = None.
Proof.
  intros Ht Hc. unfold xktimer_update_ticks. cbn [xktimer_assert negb].
  rd_step. destruct (state t =? 0); by apply bind_None.
Qed.


Lemma xktimer_add_no_clock p t w ty tmo cb :
  timers w !! p = Some t ->
  xktimer_ref_idx w < XKTIMER_MAX_TIMERS ->
  xktimer_clock w = None ->
  xktimer_add (Some p) ty tmo cb w = None.
Proof.
  intros Ht Hi Hc. unfold xktimer_add.
  unfold bind at 1. unfold get_ref_idx at 1. cbn [xktimer_assert negb orb].
  destruct (Z.leb_spec XKTIMER_MAX_TIMERS (xktimer_ref_idx w)); [lia|].
  do 6 wr_step. apply bind_None.
  eapply xktimer_update_ticks_no_clock; [apply put_lookup|].
  by apply xktimer_clock_put_None.
Qed.

Lemma xktimer_add_dual_no_clock p t w tmo tmo2 cb :
  timers w !! p = Some t ->
  xktimer_ref_idx w < XKTIMER_MAX_TIMERS ->
  xktimer_clock w = None ->
  xktimer_add_dual (Some p) tmo tmo2 cb w = None.
Proof.
  intros Ht Hi Hc. unfold xktimer_add_dual.
  unfold bind at 1. unfold get_ref_idx at 1. cbn [xktimer_assert negb orb].
  destruct (Z.leb_spec XKTIMER_MAX_TIMERS (xktimer_ref_idx w)); [lia|].
  do 6 wr_step. apply bind_None.
  eapply xktimer_update_ticks_no_clock; [apply put_lookup|].
  by apply xktimer_clock_put_None.
Qed.

Lemma xktimer_add_no_timer p w ty tmo cb :
  timers w !! p = None ->
  xktimer_ref_idx w < XKTIMER_MAX_TIMERS ->
  xktimer_add (Some p) ty tmo cb w = None.
Proof.
  intros Ht Hi. unfold xktimer_add, bind, get_ref_idx, wr; simpl.
  destruct (Z.leb_spec XKTIMER_MAX_TIMERS (xktimer_ref_idx w)); [lia|].
  by rewrite Ht.
Qed.

Lemma xktimer_add_dual_no_timer p w tmo tmo2 cb :
  timers w !! p = None ->
  xktimer_ref_idx w < XKTIMER_MAX_TIMERS ->
  xktimer_add_dual (Some p) tmo tmo2 cb w = None.
Proof.
  intros Ht Hi. unfold xktimer_add_dual, bind, get_ref_idx, wr; simpl.
  destruct (Z.leb_spec XKTIMER_MAX_TIMERS (xktimer_ref_idx w)); [lia|].
  by rewrite Ht.
Qed.

(** ** Registration *)

(** C3.  A registration call that returns success, through [xktimer_add]
    or through [xktimer_add_dual], was given a timer that exists, and
    leaves it disabled with its deadline at the value [xktimer_clock()]
    had during the call plus the (first) timeout. *)
Theorem register_postcondition timer ty tmo tmo2 cb w w' :
  xktimer_add timer ty tmo cb w = Some (true, w') \/
  xktimer_add_dual timer tmo tmo2 cb w = Some (true, w') ->
  exists p t now w1,
    timer = Some p /\ xktimer_clock w = Some (now, w1) /\
    timers w' !! p = Some t /\ enabled t = false /\ ticks t = now + tmo.
Proof.
  intros H.
  destruct timer as [p|]; [|by destruct H as [H|H]; vm_compute in H].
  destruct (Z.leb_spec XKTIMER_MAX_TIMERS (xktimer_ref_idx w)) as [Hi|Hi].
  { destruct H as [H|H];
      [rewrite xktimer_add_full in H | rewrite xktimer_add_dual_full in H]; done. }
  destruct (timers w !! p) as [t0|] eqn:Ht.
  2:{ destruct H as [H|H];
        [rewrite xktimer_add_no_timer in H | rewrite xktimer_add_dual_no_timer in H];
        done. }
  destruct (xktimer_clock w) as [[now w1]|] eqn:Hc.
  2:{ destruct H as [H|H];
        [erewrite xktimer_add_no_clock in H | erewrite xktimer_add_dual_no_clock in H];
        done. }
  destruct H as [H|H];
    [erewrite xktimer_add_spec in H by done
    | erewrite xktimer_add_dual_spec in H by done];
    unfold bind in H;
    destruct (xktimer_add_ptr _ _) as [[b w0]|] eqn:Ep; try done;
    injection H as <-;
    apply xktimer_add_ptr_timers in Ep; eexists p, _, now, w1; rewrite Ep, put_lookup; eauto 10.
Qed.

(** C4.  Once the registry holds [XKTIMER_MAX_TIMERS] timers, a
    registration call of either kind returns failure and leaves the whole
    world as it was: the registry, its count and every timer. *)
Theorem register_beyond_capacity timer ty tmo tmo2 cb w :
  xktimer_ref_idx w = XKTIMER_MAX_TIMERS ->
  xktimer_add timer ty tmo cb w = Some (false, w) /\
  xktimer_add_dual timer tmo tmo2 cb w = Some (false, w).
Proof.
  intros Hi. split; [apply xktimer_add_full | apply xktimer_add_dual_full]; lia.
Qed.

(** ** Stopping *)

(** C7.  [xktimer_stop] on a timer clears its [enabled] flag and changes
    nothing else: type, state, both timeouts, deadline and callback of the
    timer are as before, and so is the rest of the world. *)
Theorem stop_clears_enabled_only p t w :
  timers w !! p = Some t ->
  exists t',
    xktimer_stop (Some p) w = Some (tt, with_timers (<[p := t']> (timers w)) w) /\
    enabled t' = false /\
    state t' = state t /\ ticks t' = ticks t /\
    timeout t' = timeout t /\ timeout2 t' = timeout2 t /\
    type t' = type t /\ callback t' = callback t.
Proof.
  intros Ht. eexists. split; [by apply xktimer_stop_spec|]. by repeat split.
Qed.

(** ** Null references *)

(** C9.  Given a null timer reference, every operation declared in
    xktimer.h that takes a timer returns without a fault and without
    changing anything; those that return a value return false or zero. *)
Theorem null_reference_defaults w :
  xktimer_assert None = false /\
  (forall ty tmo cb, xktimer_add None ty tmo cb w = Some (false, w)) /\
  (forall tmo tmo2 cb, xktimer_add_dual None tmo tmo2 cb w = Some (false, w)) /\
  xktimer_update_ticks None w = Some (tt, w) /\
  xktimer_timeout None w = Some (0, w) /\
  xktimer_timeout2 None w = Some (0, w) /\
  xktimer_next_timeout None w = Some (0, w) /\
  (forall tmo, xktimer_set_timeout None tmo w = Some (tt, w)) /\
  (forall tmo tmo2, xktimer_set_timeout_dual None tmo tmo2 w = Some (tt, w)) /\
  xktimer_start None w = Some (tt, w) /\
  xktimer_stop None w = Some (tt, w) /\
  xktimer_running None w = Some (false, w) /\
  xktimer_handle None w = Some (tt, w).
Proof. repeat split. Qed.

(** ** Expiry *)

(** C5.  When [xktimer_handle] finds an enabled timer whose deadline has
    passed, however long ago, it toggles the state of a dual-state timer,
    recomputes the deadline from a fresh clock reading and the timeout the
    new state selects, and only then calls the callback, once, with the new
    state; without a callback it returns at that point. *)
Theorem handle_expired p t w now w1 now' w2 :
  timers w !! p = Some t -> enabled t = true ->
  xktimer_clock w = Some (now, w1) -> ticks t <= now ->
  xktimer_clock w1 = Some (now', w2) ->
  exists t',
    state t' = (if type t =? XKTIMER_DUAL_STATE
                then (if state t =? 0 then 1 else 0) else state t) /\
    ticks t' = now' + (if state t' =? 0 then timeout t else timeout2 t) /\
    timeout t' = timeout t /\ timeout2 t' = timeout2 t /\
    type t' = type t /\ callback t' = callback t /\
    xktimer_handle (Some p) w =
      match callback t with
      | Some f =>
          run_callback f (state t')
            (with_calls (calls w ++ [(f, state t')]) (put p t' w2)) ≫=
          (fun w' => Some (tt, w'))
      | None => Some (tt, put p t' w2)
      end.
Proof.
  intros Ht He Hc Hle Hc'.
  assert (Hcalls : calls w2 = calls w).
  { apply xktimer_clock_frame in Hc as (? & ? & ->).
    by apply xktimer_clock_frame in Hc' as (? & ? & ->). }
  assert (Hcall : forall f a t', call f a (put p t' w2) =
    run_callback f a (with_calls (calls w ++ [(f, a)]) (put p t' w2)) ≫=
      (fun w' => Some (tt, w'))).
  { intros. unfold call. cbn [calls put with_timers]. rewrite Hcalls.
    by destruct (run_callback _ _ _). }
  destruct (Z.eqb_spec (type t) XKTIMER_DUAL_STATE) as [E3|E3].
  - exists (Timer (type t) true (if state t =? 0 then 1 else 0) (timeout t) (timeout2 t)
                  (now' + (if state t =? 0 then timeout2 t else timeout t)) (callback t)).
    cbn [type enabled state timeout timeout2 ticks callback].
    split_and!; try done; [by destruct (state t =? 0)|].
    rewrite (xktimer_handle_fire_dual _ _ _ _ _ _ _ Ht He E3 Hc Hle Hc').
    cbv zeta. destruct (callback t); [apply Hcall | reflexivity].
  - destruct (Z.eqb_spec (type t) XKTIMER_SINGLE_SHOT) as [E1|E1].
    + exists (Timer (type t) false (state t) (timeout t) (timeout2 t)
                    (now' + (if state t =? 0 then timeout t else timeout2 t)) (callback t)).
      cbn [type enabled state timeout timeout2 ticks callback].
      split_and!; try done.
      rewrite (xktimer_handle_fire_single_shot _ _ _ _ _ _ _ Ht He E1 Hc Hle Hc').
      cbv zeta. destruct (callback t); [apply Hcall | reflexivity].
    + exists (Timer (type t) true (state t) (timeout t) (timeout2 t)
                    (now' + (if state t =? 0 then timeout t else timeout2 t)) (callback t)).
      cbn [type enabled state timeout timeout2 ticks callback].
      split_and!; try done.
      rewrite (xktimer_handle_fire_other _ _ _ _ _ _ _ Ht He E1 E3 Hc Hle Hc').
      cbv zeta. destruct (callback t); [apply Hcall | reflexivity].
Qed.

(** ** Single-shot timers *)

(** C2.  The life of a single-shot timer with timeout [T] started when the
    clock shows [t0]: [xktimer_start] enables it with deadline [t0 + T];
    a check that reads the clock before the deadline changes nothing but
    the clock reading it consumed; a check that reads it at or after the
    deadline disables the timer and then calls the callback once, with
    argument 0, so that a callback that leaves the timer alone leaves it
    disabled; and a check of a disabled timer does nothing at all. *)
Theorem single_shot_life p t w t0 w1 :
  timers w !! p = Some t -> type t = XKTIMER_SINGLE_SHOT ->
  xktimer_clock w = Some (t0, w1) ->
  let T := timeout t in
  let started := Timer (type t) true 0 T (timeout2 t) (t0 + T) (callback t) in
  xktimer_start (Some p) w = Some (tt, put p started w1) /\
  (forall v now v1,
     timers v !! p = Some started ->
     xktimer_clock v = Some (now, v1) -> now < t0 + T ->
     xktimer_handle (Some p) v = Some (tt, v1) /\
     exists c pend, v1 = with_clock c pend v) /\
  (forall v now v1 now' v2,
     timers v !! p = Some started ->
     xktimer_clock v = Some (now, v1) -> t0 + T <= now ->
     xktimer_clock v1 = Some (now', v2) ->
     let fired := Timer (type t) false 0 T (timeout2 t) (now' + T) (callback t) in
     xktimer_handle (Some p) v =
       match callback t with
       | Some f =>
           run_callback f 0 (with_calls (calls v ++ [(f, 0)]) (put p fired v2)) ≫=
           (fun v' => Some (tt, v'))
       | None => Some (tt, put p fired v2)
       end /\
     (callbacks_keep p ->
      forall v', xktimer_handle (Some p) v = Some (tt, v') ->
                 timers v' !! p = Some fired)) /\
  (forall v td,
     timers v !! p = Some td -> enabled td = false ->
     xktimer_handle (Some p) v = Some (tt, v)).
Proof.
  intros Ht Hty Hc T started. split_and!.
  - by apply xktimer_start_spec.
  - intros v now v1 Hv Hcv Hlt. split.
    + by eapply xktimer_handle_early.
    + by eapply xktimer_clock_frame.
  - intros v now v1 now' v2 Hv Hcv Hle Hcv' fired.
    assert (Hcalls : calls v2 = calls v).
    { apply xktimer_clock_frame in Hcv as (? & ? & ->).
      by apply xktimer_clock_frame in Hcv' as (? & ? & ->). }
    assert (Heq : xktimer_handle (Some p) v =
       match callback t with
       | Some f =>
           run_callback f 0 (with_calls (calls v ++ [(f, 0)]) (put p fired v2)) ≫=
           (fun v' => Some (tt, v'))
       | None => Some (tt, put p fired v2)
       end).
    { rewrite (xktimer_handle_fire_single_shot p started v now v1 now' v2) by done.
      cbn [type enabled state timeout timeout2 ticks callback started Z.eqb].
      destruct (callback t) as [f|]; [|done].
      unfold call. cbn [calls put with_timers]. rewrite Hcalls.
      by destruct (run_callback _ _ _). }
    split; [done|].
    intros Hk v'. rewrite Heq.
    destruct (callback t) as [f|].
    + destruct (run_callback _ _ _) as [v0|] eqn:Er; [|done].
      intros [= <-]. rewrite (Hk _ _ _ _ Er). apply lookup_insert_eq.
    + intros [= <-]. apply put_lookup.
  - intros v td. apply xktimer_handle_disabled.
Qed.

(** ** Types outside the three kinds *)

(** C10.  [xktimer_add] with a type that is none of the three kinds stores
    that type as given; and an expired, running timer of such a type [ty]
    is handled by the same rule as one of type [XKTIMER_PERIODIC]: it stays
    enabled, its deadline is recomputed and its callback is called, which
    leaves it ready for the next period. *)
Theorem unlisted_type_as_periodic p ty tmo cb :
  ty <> XKTIMER_SINGLE_SHOT -> ty <> XKTIMER_PERIODIC -> ty <> XKTIMER_DUAL_STATE ->
  (forall w w', xktimer_add (Some p) ty tmo cb w = Some (true, w') ->
     exists t', timers w' !! p = Some t' /\ type t' = ty /\ state t' = 0 /\
                timeout t' = tmo /\ callback t' = cb) /\
  (forall k tk v now v1 now' v2,
     k = ty \/ k = XKTIMER_PERIODIC ->
     timers v !! p = Some (Timer k true 0 tmo 0 tk cb) ->
     xktimer_clock v = Some (now, v1) -> tk <= now ->
     xktimer_clock v1 = Some (now', v2) ->
     let next := Timer k true 0 tmo 0 (now' + tmo) cb in
     xktimer_handle (Some p) v =
       match cb with
       | Some f =>
           run_callback f 0 (with_calls (calls v ++ [(f, 0)]) (put p next v2)) ≫=
           (fun v' => Some (tt, v'))
       | None => Some (tt, put p next v2)
       end).
Proof.
  intros H1 H2 H3. split.
  - intros w w' Hadd.
    destruct (Z.leb_spec XKTIMER_MAX_TIMERS (xktimer_ref_idx w)) as [Hi|Hi];
      [by rewrite xktimer_add_full in Hadd|].
    destruct (timers w !! p) as [t0|] eqn:Ht0;
      [|by rewrite xktimer_add_no_timer in Hadd].
    destruct (xktimer_clock w) as [[now w1]|] eqn:Hc.
    2:{ by rewrite (xktimer_add_no_clock _ _ _ _ _ _ Ht0 Hi Hc) in Hadd. }
    erewrite xktimer_add_spec in Hadd by done.
    unfold bind in Hadd.
    destruct (xktimer_add_ptr _ _) as [[b w0]|] eqn:Ep; [|done].
    injection Hadd as <-. apply xktimer_add_ptr_timers in Ep.
    eexists. rewrite Ep, put_lookup. by split_and!.
  - intros k tk v now v1 now' v2 Hk Hv Hcv Hle Hcv' next.
    assert (Hcalls : calls v2 = calls v).
    { apply xktimer_clock_frame in Hcv as (? & ? & ->).
      by apply xktimer_clock_frame in Hcv' as (? & ? & ->). }
    rewrite (xktimer_handle_fire_other p _ v now v1 now' v2 Hv); try done.
    + cbn [type enabled state timeout timeout2 ticks callback Z.eqb].
      destruct cb as [f|]; [|done].
      unfold call. cbn [calls put with_timers]. rewrite Hcalls.
      by destruct (run_callback _ _ _).
    + cbn [type]. by destruct Hk as [->| ->].
    + cbn [type]. by destruct Hk as [->| ->].
Qed.

(** ** The stand-alone periodic helper *)

Lemma rd_cell_Some r w v :
  cells w !! r = Some v -> rd_cell (Some r) w = Some (v, w).
Proof. intros H. unfold rd_cell. by rewrite H. Qed.

Lemma wr_cell_Some r w v v' :
  cells w !! r = Some v ->
  wr_cell (Some r) v' w = Some (tt, with_cells (<[r := v']> (cells w)) w).
Proof. intros H. unfold wr_cell. by rewrite H. Qed.

Lemma clock_t_wrap_in_range z :
  CLOCK_T_MIN <= z <= CLOCK_T_MAX -> clock_t_wrap z = z.
Proof.
  unfold clock_t_wrap, CLOCK_T_MIN, CLOCK_T_MAX. intros Hz.
  rewrite Z.mod_small by lia. lia.
Qed.

Lemma xktimer_periodic_true r ref P w now w1 now' w2 :
  cells w !! r = Some ref ->
  xktimer_clock w = Some (now, w1) -> clock_t_wrap (ref + P) <= now ->
  xktimer_clock w1 = Some (now', w2) ->
  xktimer_periodic (Some r) P w =
    Some (true, with_cells (<[r := now']> (cells w2)) w2).
Proof.
  intros Hr Hc Hle Hc'. unfold xktimer_periodic.
  rewrite (bind_Some _ _ _ _ _ Hc).
  assert (Hr1 : cells w1 !! r = Some ref).
  { by apply xktimer_clock_frame in Hc as (? & ? & ->). }
  assert (Hr2 : cells w2 !! r = Some ref).
  { by apply xktimer_clock_frame in Hc' as (? & ? & ->). }
  rewrite (bind_Some _ _ _ _ _ (rd_cell_Some _ _ _ Hr1)).
  destruct (Z.leb_spec (clock_t_wrap (ref + P)) now); [|lia].
  rewrite (bind_Some _ _ _ _ _ Hc').
  by rewrite (bind_Some _ _ _ _ _ (wr_cell_Some _ _ _ _ Hr2)).
Qed.

Lemma xktimer_periodic_false r ref P w now w1 :
  cells w !! r = Some ref ->
  xktimer_clock w = Some (now, w1) -> now < clock_t_wrap (ref + P) ->
  xktimer_periodic (Some r) P w = Some (false, w1).
Proof.
  intros Hr Hc Hlt. unfold xktimer_periodic.
  rewrite (bind_Some _ _ _ _ _ Hc).
  assert (Hr1 : cells w1 !! r = Some ref).
  { by apply xktimer_clock_frame in Hc as (? & ? & ->). }
  rewrite (bind_Some _ _ _ _ _ (rd_cell_Some _ _ _ Hr1)).
  by destruct (Z.leb_spec (clock_t_wrap (ref + P)) now); [lia|].
Qed.

Lemma periodic_polls_from r P :
  CLOCKS_PER_SEC ÷ XKTIMER_RESOLUTION <> 0 -> 0 < P ->
  forall n s ref w,
    cells w !! r = Some ref -> 0 <= s - ref < P ->
    CLOCK_T_MIN <= ref -> s + Z.of_nat n + P <= CLOCK_T_MAX ->
    exists w',
      periodic_polls (Some r) P (seqZ (s + 1) (Z.of_nat n)) w =
        Some ((fun k => bool_decide ((k - ref) `mod` P = 0)) <$>
                seqZ (s + 1) (Z.of_nat n), w').
Proof.
  intros Hd HP. induction n as [|n IH]; intros s ref w Hr Hs Hlo Hhi.
  { by exists w. }
  assert (Hw : clock_t_wrap (ref + P) = ref + P)
    by (apply clock_t_wrap_in_range; lia).
  rewrite seqZ_cons by lia.
  replace (Z.pred (Z.of_nat (S n))) with (Z.of_nat n) by lia.
  replace (Z.succ (s + 1)) with ((s + 1) + 1) by lia.
  cbn [periodic_polls fmap list_fmap].
  pose proof (xktimer_clock_at_tick (s + 1) w Hd) as Hc.
  destruct (Z.le_gt_cases (ref + P) (s + 1)) as [Hfire|Hwait].
  - rewrite (xktimer_periodic_true r ref P (at_tick (s + 1) w) _ _ _ _ Hr Hc
               ltac:(rewrite Hw; exact Hfire) Hc).
    assert (Es : s + 1 - ref = P) by lia.
    match goal with
    | |- context [periodic_polls _ _ _ ?v] =>
        destruct (IH (s + 1) (s + 1) v) as [w' Hw'];
          [apply lookup_insert_eq | lia | lia | lia |]
    end.
    exists w'. rewrite Hw'. do 3 f_equal.
    + rewrite Es, Z_mod_same_full. by rewrite bool_decide_eq_true_2.
    + apply list_fmap_ext. intros i k _.
      replace (k - ref) with (k - (s + 1) + 1 * P) by lia.
      by rewrite Z_mod_plus_full.
  - rewrite (xktimer_periodic_false r ref P (at_tick (s + 1) w) _ _ Hr Hc
               ltac:(rewrite Hw; lia)).
    destruct (IH (s + 1) ref (at_tick (s + 1) w)) as [w' Hw'];
      [done | lia | lia | lia |].
    exists w'. rewrite Hw'. do 3 f_equal.
    rewrite bool_decide_eq_false_2; [done|].
    rewrite Z.mod_small by lia. lia.
Qed.

(** C6.  [xktimer_periodic] on a tick variable holding [ref], with
    period [P], where [ref + P] is a value of [clock_t]: it returns true
    and stores the clock's next reading in the variable exactly when the
    reading it compares, less [ref], is at least [P]; otherwise it returns
    false and the variable keeps [ref].  Polled at every tick after the one
    the variable was set to, as long as the ticks plus [P] stay in
    [clock_t], it returns true at the ticks that are a multiple of [P]
    later and false at all others. *)
Theorem periodic_helper r ref P w now w1 :
  cells w !! r = Some ref ->
  xktimer_clock w = Some (now, w1) ->
  CLOCK_T_MIN <= ref -> 0 <= P -> ref + P <= CLOCK_T_MAX ->
  (P <= now - ref ->
   forall now' w2, xktimer_clock w1 = Some (now', w2) ->
     xktimer_periodic (Some r) P w =
       Some (true, with_cells (<[r := now']> (cells w2)) w2)) /\
  (now - ref < P ->
   xktimer_periodic (Some r) P w = Some (false, w1) /\ cells w1 !! r = Some ref) /\
  (0 < P ->
   forall n : nat, ref + Z.of_nat n + P <= CLOCK_T_MAX ->
   exists w',
     periodic_polls (Some r) P (seqZ (ref + 1) (Z.of_nat n)) w =
       Some ((fun k => bool_decide ((k - ref) `mod` P = 0)) <$>
               seqZ (ref + 1) (Z.of_nat n), w')).
Proof.
  intros Hr Hc Hlo HP0 Hhi.
  assert (Hw : clock_t_wrap (ref + P) = ref + P)
    by (apply clock_t_wrap_in_range; lia).
  split_and!.
  - intros Hle now' w2 Hc'. eapply xktimer_periodic_true; eauto. lia.
  - intros Hlt. split.
    + eapply xktimer_periodic_false; eauto. lia.
    + by apply xktimer_clock_frame in Hc as (? & ? & ->).
  - intros HP n Hn. apply xktimer_clock_inv in Hc as [Hd _].
    apply periodic_polls_from; [done | done | done | lia | done | done].
Qed.

(** ** Dual-state timers *)

(** The first time a started dual-state timer expires, its callback is
    called with 1, and the next deadline is [timeout2] away. *)
Lemma dual_state_first_expiry p t f w now w1 now' w2 :
  timers w !! p = Some t -> type t = XKTIMER_DUAL_STATE ->
  enabled t = true -> state t = 0 -> callback t = Some f ->
  xktimer_clock w = Some (now, w1) -> ticks t <= now ->
  xktimer_clock w1 = Some (now', w2) ->
  xktimer_handle (Some p) w =
    call f 1 (put p (Timer XKTIMER_DUAL_STATE true 1 (timeout t) (timeout2 t)
                           (now' + timeout2 t) (Some f)) w2).
Proof.
  intros Ht Hty He Hst Hcb Hc Hle Hc'.
  rewrite (xktimer_handle_fire_dual _ _ _ _ _ _ _ Ht He Hty Hc Hle Hc').
  by rewrite Hcb, Hst, Hty.
Qed.

(** ** The state field *)






(** ** Changing and reading the timeouts *)

(** [xktimer_set_timeout_dual] puts the timer back in state 0 whatever its
    state was, stores both timeouts and counts the deadline from the first;
    whether the timer runs, its type and its callback stay as they are. *)
Theorem set_timeout_dual_resets p t w tmo tmo2 now w1 :
  timers w !! p = Some t ->
  xktimer_clock w = Some (now, w1) ->
  exists t',
    xktimer_set_timeout_dual (Some p) tmo tmo2 w = Some (tt, put p t' w1) /\
    state t' = 0 /\ timeout t' = tmo /\ timeout2 t' = tmo2 /\
    ticks t' = now + tmo /\
    enabled t' = enabled t /\ type t' = type t /\ callback t' = callback t.
Proof.
  intros Ht Hc. eexists. split; [by apply xktimer_set_timeout_dual_spec|].
  by split_and!.
Qed.

(** [xktimer_set_timeout] stores the first timeout and recomputes the
    deadline without touching the state: for a timer in state 0 the new
    deadline is the new timeout away, but for a dual-state timer in its
    second state it is [timeout2] away, and the new value only counts from
    the next cycle on. *)
Theorem set_timeout_keeps_phase p t w tmo now w1 :
  timers w !! p = Some t ->
  xktimer_clock w = Some (now, w1) ->
  exists t',
    xktimer_set_timeout (Some p) tmo w = Some (tt, put p t' w1) /\
    timeout t' = tmo /\ timeout2 t' = timeout2 t /\
    state t' = state t /\ enabled t' = enabled t /\
    (state t = 0 -> ticks t' = now + tmo) /\
    (state t <> 0 -> ticks t' = now + timeout2 t).
Proof.
  intros Ht Hc. eexists. split; [by apply xktimer_set_timeout_spec|].
  cbn [timeout timeout2 state enabled ticks]. split_and!; try done.
  - by intros ->.
  - intros Hne. by destruct (Z.eqb_spec (state t) 0).
Qed.

(** What [xktimer_set_timeout] and [xktimer_set_timeout_dual] store is what
    [xktimer_timeout] and [xktimer_timeout2] return next. *)
Theorem timeout_round_trip p t w now w1 :
  timers w !! p = Some t ->
  xktimer_clock w = Some (now, w1) ->
  (forall v, exists w',
     (xktimer_set_timeout (Some p) v >> xktimer_timeout (Some p)) w = Some (v, w')) /\
  (forall a b, exists w',
     (xktimer_set_timeout_dual (Some p) a b >>
      let* x := xktimer_timeout (Some p) in
      let* y := xktimer_timeout2 (Some p) in
      ret (x, y)) w = Some ((a, b), w')).
Proof.
  intros Ht Hc. split.
  - intros v. eexists.
    erewrite bind_Some by (by apply xktimer_set_timeout_spec).
    unfold xktimer_timeout. cbn [xktimer_assert negb].
    by erewrite rd_Some by apply put_lookup.
  - intros a b. eexists.
    erewrite bind_Some by (by apply xktimer_set_timeout_dual_spec).
    unfold xktimer_timeout, xktimer_timeout2. cbn [xktimer_assert negb].
    do 2 rd_step. reflexivity.
Qed.

(** ** Starting and stopping *)

(** [xktimer_running] tells what the last of [xktimer_start] and
    [xktimer_stop] did, and a timer that has just been registered is not
    running. *)
Theorem running_reflects_start_stop p t w now w1 :
  timers w !! p = Some t ->
  xktimer_clock w = Some (now, w1) ->
  (exists w', (xktimer_start (Some p) >> xktimer_running (Some p)) w = Some (true, w')) /\
  (exists w', (xktimer_stop (Some p) >> xktimer_running (Some p)) w = Some (false, w')) /\
  (forall ty tmo cb w',
     xktimer_add (Some p) ty tmo cb w = Some (true, w') ->
     xktimer_running (Some p) w' = Some (false, w')).
Proof.
  intros Ht Hc. split_and!.
  - eexists. erewrite bind_Some by (by apply xktimer_start_spec).
    unfold xktimer_running. cbn [xktimer_assert negb].
    by erewrite rd_Some by apply put_lookup.
  - eexists. erewrite bind_Some by (by apply xktimer_stop_spec).
    unfold xktimer_running. cbn [xktimer_assert negb].
    by erewrite rd_Some by apply put_lookup.
  - intros ty tmo cb w' Hadd.
    destruct (Z.leb_spec XKTIMER_MAX_TIMERS (xktimer_ref_idx w)) as [Hi|Hi];
      [by rewrite xktimer_add_full in Hadd|].
    erewrite xktimer_add_spec in Hadd by done.
    apply bind_inv in Hadd as (b & w0 & Hp & [= <-]).
    apply xktimer_add_ptr_timers in Hp.
    unfold xktimer_running. cbn [xktimer_assert negb].
    by erewrite rd_Some by (rewrite Hp; apply put_lookup).
Qed.

(** Stopping a timer and starting it again is the same as starting it: the
    timer does not resume where it was stopped but begins again in state 0
    with its deadline the first timeout away. *)
Theorem stop_start_restarts p t w now w1 :
  timers w !! p = Some t ->
  xktimer_clock w = Some (now, w1) ->
  (xktimer_stop (Some p) >> xktimer_start (Some p)) w = xktimer_start (Some p) w /\
  xktimer_start (Some p) w =
    Some (tt, put p (Timer (type t) true 0 (timeout t) (timeout2 t)
                           (now + timeout t) (callback t)) w1).
Proof.
  intros Ht Hc. split; [|by apply xktimer_start_spec].
  erewrite bind_Some by (by apply xktimer_stop_spec).
  erewrite !xktimer_start_spec;
    [| done | done | apply put_lookup | by apply xktimer_clock_put].
  by rewrite put_put.
Qed.

Lemma clock_put p t w c w1 :
  clock w = Some (c, w1) -> clock (put p t w) = Some (c, put p t w1).
Proof.
  unfold clock. cbn. destruct (clock_pending w); intros [= <- <-]; reflexivity.
Qed.

(** [xktimer_next_timeout] subtracts the raw value of [clock()] from a
    deadline counted in ticks of [xktimer_clock()].  Asked right after
    [xktimer_start], where [xktimer_start] read [c1] from [clock()] and
    [xktimer_next_timeout] reads [c2], neither negative, it returns the
    ticks in [c1] plus the timeout, less [c2] itself: the time left only
    where a tick is one clock unit. *)
Theorem next_timeout_after_start p t w c1 w1 c2 w2 :
  timers w !! p = Some t ->
  CLOCKS_PER_SEC ÷ XKTIMER_RESOLUTION <> 0 ->
  clock w = Some (c1, w1) -> clock w1 = Some (c2, w2) ->
  0 <= c1 -> 0 <= c2 ->
  (xktimer_start (Some p) >> xktimer_next_timeout (Some p)) w =
    Some (c1 ÷ (CLOCKS_PER_SEC ÷ XKTIMER_RESOLUTION) + timeout t - c2,
          put p (Timer (type t) true 0 (timeout t) (timeout2 t)
                       (c1 ÷ (CLOCKS_PER_SEC ÷ XKTIMER_RESOLUTION) + timeout t)
                       (callback t)) w2).
Proof.
  intros Ht Hd Hc1 Hc2 _ _.
  assert (Hc : xktimer_clock w =
               Some (c1 ÷ (CLOCKS_PER_SEC ÷ XKTIMER_RESOLUTION), w1)).
  { unfold xktimer_clock. rewrite (bind_Some _ _ _ _ _ Hc1).
    by destruct (Z.eqb_spec (CLOCKS_PER_SEC ÷ XKTIMER_RESOLUTION) 0). }
  rewrite (bind_Some _ _ _ _ _ (xktimer_start_spec _ _ _ _ _ Ht Hc)).
  unfold xktimer_next_timeout. cbn [xktimer_assert negb].
  rd_step. by rewrite (bind_Some _ _ _ _ _ (clock_put _ _ _ _ _ Hc2)).
Qed.

(** ** The registry *)

Lemma xktimer_clock_ok w :
  CLOCKS_PER_SEC ÷ XKTIMER_RESOLUTION <> 0 ->
  exists now c pend, xktimer_clock w = Some (now, with_clock c pend w).
Proof.
  intros Hd. unfold xktimer_clock, bind, clock.
  destruct w as [tm ce rf ix cn cp ho cl]; cbn.
  destruct cp as [|c rest]; cbn;
    (destruct (Z.eqb_spec (CLOCKS_PER_SEC ÷ XKTIMER_RESOLUTION) 0); [done|]).
  - by exists (cn ÷ (CLOCKS_PER_SEC ÷ XKTIMER_RESOLUTION)), cn, [].
  - by exists (c ÷ (CLOCKS_PER_SEC ÷ XKTIMER_RESOLUTION)), c, rest.
Qed.

Lemma xktimer_add_ptr_static timer w l (n : nat) :
  XKTIMER_NO_MALLOC = true ->
  xktimer_ref w = Some l -> xktimer_ref_idx w = Z.of_nat n -> (n < length l)%nat ->
  xktimer_add_ptr timer w =
    Some (true, with_ref_idx (Z.of_nat (S n)) (with_ref (Some (<[n := timer]> l)) w)).
Proof.
  intros HNM Hr Hi Hn. unfold xktimer_add_ptr. rewrite HNM.
  unfold bind, get_ref_idx, store_ref, put_ref_idx, ret. rewrite Hr, Hi.
  destruct (Z.leb_spec 0 (Z.of_nat n)); [|lia].
  destruct (Z.ltb_spec (Z.of_nat n) (Z.of_nat (length l))); [|lia].
  cbn. rewrite Nat2Z.id. do 3 f_equal. lia.
Qed.

Lemma register_all_static ty tmo :
  XKTIMER_NO_MALLOC = true ->
  CLOCKS_PER_SEC ÷ XKTIMER_RESOLUTION <> 0 ->
  forall ps w l (n : nat),
    xktimer_ref w = Some l -> length l = 30%nat ->
    xktimer_ref_idx w = Z.of_nat n -> (n <= 30)%nat ->
    (forall p, p ∈ ps -> is_Some (timers w !! p)) ->
    let k := (length ps `min` (30 - n))%nat in
    exists w',
      register_all ps ty tmo w =
        Some (replicate k true ++ replicate (length ps - k) false, w') /\
      xktimer_ref_idx w' = Z.of_nat (n + k) /\
      xktimer_ref w' = Some (take n l ++ (Some <$> take k ps) ++ drop (n + k) l).
Proof.
  intros HNM Hd. induction ps as [|p ps IH]; intros w l n Hr Hl Hi Hn Hps k.
  { exists w. subst k. cbn. rewrite Nat.add_0_r, take_drop. by rewrite Hi. }
  cbn [register_all].
  destruct (decide (n = 30%nat)) as [->|Hlt].
  - (* the registry is full: the call fails and nothing changes *)
    rewrite (bind_Some _ _ _ _ _ (xktimer_add_full _ _ _ _ _ ltac:(rewrite Hi; done))).
    destruct (IH w l 30%nat Hr Hl Hi Hn) as (w' & Hw' & Hi' & Hr').
    { intros q Hq. apply Hps. by right. }
    exists w'. rewrite (bind_Some _ _ _ _ _ Hw'). subst k. cbn in *.
    rewrite Nat.min_0_r in *. cbn in *. rewrite Nat.sub_0_r in *.
    by rewrite Hi', Hr'.
  - destruct (Hps p ltac:(by left)) as [t Ht].
    destruct (xktimer_clock_ok w Hd) as (now & c & pend & Hc).
    erewrite bind_Some.
    2:{ erewrite xktimer_add_spec; [| exact Ht | rewrite Hi; unfold XKTIMER_MAX_TIMERS; lia
                                    | exact Hc].
        erewrite bind_Some; [reflexivity|].
        apply (xktimer_add_ptr_static _ _ l n); [done | done | done | lia]. }
    match goal with
    | |- context [bind (register_all ps ty tmo) _ ?v] =>
        destruct (IH v (<[n := Some p]> l) (S n)) as (w' & Hw' & Hi' & Hr')
    end.
    { done. }
    { by rewrite length_insert. }
    { done. }
    { lia. }
    { intros q Hq. cbn. destruct (decide (q = p)) as [->|Hne].
      - rewrite lookup_insert_eq. by eexists.
      - rewrite lookup_insert_ne by done. apply Hps. by right. }
    exists w'. rewrite (bind_Some _ _ _ _ _ Hw'). subst k. cbn [length].
    replace (S (length ps) `min` (30 - n))%nat
      with (S (length ps `min` (30 - S n)))%nat by lia.
    split_and!.
    + by cbn.
    + rewrite Hi'. f_equal. lia.
    + rewrite Hr'. f_equal.
      assert (Hlk : <[n := Some p]> l !! n = Some (Some p)).
      { apply list_lookup_insert_eq. unfold xktimer_ptr_t in *. lia. }
      rewrite (take_S_r _ _ (Some p)) by done.
      rewrite take_insert_ge by lia.
      rewrite drop_insert_lt by lia.
      cbn. rewrite <- app_assoc. cbn. by rewrite Nat.add_succ_r.
Qed.

(** In the build with the fixed array, registering the timers [ps] one after
    the other from an empty registry succeeds for the first thirty and fails
    for all the rest; the count ends at the number registered, and the
    array holds their pointers in the order of registration, a timer
    registered twice taking two slots. *)
Theorem register_all_in_order ps ty tmo w l :
  XKTIMER_NO_MALLOC = true ->
  CLOCKS_PER_SEC ÷ XKTIMER_RESOLUTION <> 0 ->
  xktimer_ref w = Some l -> length l = 30%nat ->
  (forall p, p ∈ ps -> is_Some (timers w !! p)) ->
  let k := (length ps `min` 30)%nat in
  exists w',
    (xktimer_init >> register_all ps ty tmo) w =
      Some (replicate k true ++ replicate (length ps - k) false, w') /\
    xktimer_ref_idx w' = Z.of_nat k /\
    xktimer_ref w' = Some ((Some <$> take k ps) ++ drop k l).
Proof.
  intros HNM Hd Hr Hl Hps k.
  destruct (register_all_static ty tmo HNM Hd ps (with_ref_idx 0 w) l 0%nat)
    as (w' & Hw' & Hi' & Hr'); try done; [lia|].
  exists w'. split_and!; [|done|done].
  unfold xktimer_init. rewrite HNM.
  unfold bind at 1. unfold bind at 1. unfold put_ref_idx, ret.
  by rewrite Hw', Nat.sub_0_r.
Qed.

(** In the build that allocates the array: when the array pointer is null,
    as [xktimer_init] leaves it when its [malloc] fails, [xktimer_add]
    initialises the timer and returns true, but the timer is not in the
    registry: the count stays as it was and the pointer stays null. *)
Theorem add_without_registry p t w ty tmo cb now w1 :
  XKTIMER_NO_MALLOC = false ->
  timers w !! p = Some t ->
  xktimer_ref w = None ->
  xktimer_ref_idx w < XKTIMER_MAX_TIMERS ->
  xktimer_clock w = Some (now, w1) ->
  exists w',
    xktimer_add (Some p) ty tmo cb w = Some (true, w') /\
    xktimer_ref w' = None /\ xktimer_ref_idx w' = xktimer_ref_idx w /\
    timers w' !! p = Some (Timer ty false 0 tmo 0 (now + tmo) cb).
Proof.
  intros HNM Ht Hr Hi Hc.
  exists (put p (Timer ty false 0 tmo 0 (now + tmo) cb) w1).
  erewrite xktimer_add_spec by done.
  apply xktimer_clock_frame in Hc as (c & pend & ->).
  unfold xktimer_add_ptr. rewrite HNM.
  unfold bind, get_ref, ret. cbn. rewrite Hr.
  split_and!; try done. apply lookup_insert_eq.
Qed.

(** In the build that allocates the array: when the [realloc] that makes
    room for the new pointer fails, the array pointer becomes null and the
    store into the array that follows is a fault; the call does not
    return. *)
Theorem add_realloc_failure_faults p t w ty tmo cb l rest :
  XKTIMER_NO_MALLOC = false ->
  timers w !! p = Some t ->
  xktimer_ref w = Some l ->
  0 <= xktimer_ref_idx w < XKTIMER_MAX_TIMERS ->
  heap_ok w = false :: rest ->
  xktimer_add (Some p) ty tmo cb w = None.
Proof.
  intros HNM Ht Hr Hi Hh.
  destruct (xktimer_clock w) as [[now w1]|] eqn:Hc;
    [|by apply (xktimer_add_no_clock _ t); [done | lia | done]].
  erewrite xktimer_add_spec; [| done | lia | done].
  apply xktimer_clock_frame in Hc as (c & pend & ->).
  unfold xktimer_add_ptr. rewrite HNM.
  unfold bind, get_ref, get_ref_idx, alloc, put_ref, store_ref, ret. cbn.
  rewrite Hr. cbn.
  destruct (Z.leb_spec 1 (xktimer_ref_idx w + 1)); [|lia].
  cbn. rewrite Hh. cbn. by destruct rest.
Qed.

(** In the build that allocates the array: when the allocation succeeds,
    [xktimer_add] grows the array to one slot more than the count, stores
    the pointer in the new last slot and adds one to the count; the slots
    before it keep their pointers. *)
Theorem add_grows_registry p t w ty tmo cb l (n : nat) :
  XKTIMER_NO_MALLOC = false ->
  CLOCKS_PER_SEC ÷ XKTIMER_RESOLUTION <> 0 ->
  timers w !! p = Some t ->
  xktimer_ref w = Some l ->
  xktimer_ref_idx w = Z.of_nat n -> (n < 30)%nat -> (n <= length l)%nat ->
  hd true (heap_ok w) = true ->
  exists w',
    xktimer_add (Some p) ty tmo cb w = Some (true, w') /\
    xktimer_ref_idx w' = Z.of_nat (S n) /\
    xktimer_ref w' = Some (take n l ++ [Some p]).
Proof.
  intros HNM Hd Ht Hr Hi Hn Hl Hh.
  destruct (xktimer_clock_ok w Hd) as (now & c & pend & Hc).
  erewrite xktimer_add_spec;
    [| done | rewrite Hi; unfold XKTIMER_MAX_TIMERS; lia | done].
  unfold xktimer_add_ptr. rewrite HNM.
  assert (Hres : <[n := Some p]> (resize (S n) None l) = take n l ++ [Some p]).
  { unfold xktimer_ptr_t in *.
    replace (S n) with (n + 1)%nat by lia.
    rewrite resize_add. rewrite (resize_le l n) by lia.
    replace n with (length (take n l) + 0)%nat at 1 by (rewrite length_take; lia).
    rewrite insert_app_r. destruct (drop n l); cbn; rewrite ?resize_0; reflexivity. }
  apply xktimer_clock_frame in Hc as Hw1. destruct Hw1 as (c' & pend' & ->).
  assert (Hlen : length (resize (S n) None l) = S n) by apply length_resize.
  destruct w as [tm ce rf ix cn cp ho cl]. cbn in Hr, Hi, Hh. subst rf ix.
  unfold bind, get_ref, get_ref_idx, alloc, put_ref, put_ref_idx, store_ref, ret,
    put, with_timers, with_clock, with_ref, with_heap_ok, with_ref_idx.
  cbn.
  destruct (Z.leb_spec 1 (Z.of_nat n + 1)); [|lia].
  replace (Z.to_nat (Z.of_nat n + 1)) with (S n) by lia.
  unfold xktimer_ptr_t in *.
  destruct ho as [|b1 [|b2 rest]]; cbn in Hh |- *; subst; cbn;
    repeat (first
      [ rewrite length_insert | rewrite length_resize
      | match goal with
        | |- context [?a <=? ?b] => destruct (Z.leb_spec a b); [|lia]
        | |- context [?a <? ?b] => destruct (Z.ltb_spec a b); [|lia]
        end ]; cbn);
    rewrite Nat2Z.id, list_insert_insert_eq, Hres;
    eexists; (split; [reflexivity|]); cbn; (split; [lia|reflexivity]).
Qed.


(** ** The loop over the registry *)

Lemma preserves_ret {B A} (view : world -> B) (a : A) : preserves view (ret a).
Proof. by intros w a' w' [= <- <-]. Qed.

Lemma preserves_bind {B A C} (view : world -> B) (m : M A) (k : A -> M C) :
  preserves view m -> (forall a, preserves view (k a)) -> preserves view (bind m k).
Proof.
  intros Hm Hk w b w'. unfold bind.
  destruct (m w) as [[a w0]|] eqn:E; [|done].
  intros H. rewrite (Hk _ _ _ _ H). eauto.
Qed.

Lemma preserves_rd {B A} (view : world -> B) timer (f : xktimer_t -> A) :
  preserves view (rd timer f).
Proof.
  intros w a w'. unfold rd. destruct timer as [p|]; [|done].
  destruct (timers w !! p); [|done]. by intros [= <- <-].
Qed.

Lemma preserves_xktimer_clock {B} (view : world -> B) :
  (forall c pend w, view (with_clock c pend w) = view w) ->
  preserves view xktimer_clock.
Proof.
  intros Hv w a w' H. by apply xktimer_clock_frame in H as (c & pend & ->).
Qed.

Lemma preserves_wr {B} (view : world -> B) timer u :
  (forall m w, view (with_timers m w) = view w) -> preserves view (wr timer u).
Proof.
  intros Hv w a w'. unfold wr. destruct timer as [p|]; [|done].
  destruct (timers w !! p); [|done]. by intros [= <- <-].
Qed.

Lemma preserves_when {B A} (view : world -> B) (b : bool) (m1 m2 : M A) :
  preserves view m1 -> preserves view m2 -> preserves view (if b then m1 else m2).
Proof. by destruct b. Qed.

Ltac preserves_steps leaf :=
  repeat first
    [ leaf
    | by apply preserves_xktimer_clock
    | by apply preserves_wr
    | apply preserves_ret
    | apply preserves_rd
    | apply preserves_when
    | apply preserves_bind; [|intros ?] ].

Lemma xktimer_update_ticks_registry timer :
  preserves registry (xktimer_update_ticks timer).
Proof.
  unfold xktimer_update_ticks. preserves_steps fail.
Qed.

Lemma xktimer_handle_registry timer :
  callbacks_keep_registry -> preserves registry (xktimer_handle timer).
Proof.
  intros Hk. unfold xktimer_handle.
  preserves_steps ltac:(apply xktimer_update_ticks_registry).
  case_match; preserves_steps fail.
  intros w [] w'. unfold call.
  destruct (run_callback _ _ _) as [w0|] eqn:Er; [|done].
  intros [= <-]. destruct (Hk _ _ _ _ Er) as [Hr Hi].
  unfold registry. by rewrite Hr, Hi.
Qed.

Lemma load_ref_Some l (i : nat) x w :
  xktimer_ref w = Some l -> l !! i = Some x ->
  load_ref (Z.of_nat i) w = Some (x, w).
Proof.
  intros Hr Hx. unfold load_ref. rewrite Hr.
  pose proof (lookup_lt_Some _ _ _ Hx).
  destruct (Z.leb_spec 0 (Z.of_nat i)); [|lia].
  destruct (Z.ltb_spec (Z.of_nat i) (Z.of_nat (length l))); [|lia].
  cbn. by rewrite Nat2Z.id, Hx.
Qed.

Lemma xktimer_task_from_spec l (n : nat) :
  callbacks_keep_registry -> (n <= length l)%nat ->
  forall fuel (i : nat) w,
    xktimer_ref w = Some l -> xktimer_ref_idx w = Z.of_nat n ->
    (n - i < fuel)%nat ->
    xktimer_task_from fuel (Z.of_nat i) w = handle_all (take (n - i) (drop i l)) w.
Proof.
  intros Hk Hn. induction fuel as [|fuel IH]; intros i w Hr Hi Hf; [lia|].
  cbn [xktimer_task_from]. unfold bind at 1, get_ref_idx at 1. rewrite Hi.
  destruct (Z.ltb_spec (Z.of_nat i) (Z.of_nat n)) as [Hlt|Hge].
  - destruct (lookup_lt_is_Some_2 l i ltac:(lia)) as [x Hx].
    rewrite (bind_Some _ _ _ _ _ (load_ref_Some _ _ _ _ Hr Hx)).
    rewrite (drop_S _ _ _ Hx).
    replace (n - i)%nat with (S (n - S i)) by lia.
    cbn [take handle_all]. unfold bind.
    destruct (xktimer_handle x w) as [[[] w1]|] eqn:Eh; [|done].
    pose proof (xktimer_handle_registry x Hk _ _ _ Eh) as Hreg.
    injection Hreg as Hr1 Hi1.
    replace (Z.of_nat i + 1) with (Z.of_nat (S i)) by lia.
    apply IH; [by rewrite Hr1 | by rewrite Hi1 | lia].
  - replace (n - i)%nat with 0%nat by lia. done.
Qed.

(** One pass of [xktimer_task], when no callback changes the registry, is
    [xktimer_handle] on each registered timer once, in the order of
    registration; what the array holds beyond the count is not touched. *)
Theorem task_handles_in_order l (n fuel : nat) w :
  callbacks_keep_registry ->
  xktimer_ref w = Some l -> xktimer_ref_idx w = Z.of_nat n ->
  (n <= length l)%nat -> (n < fuel)%nat ->
  xktimer_task fuel w = handle_all (take n l) w.
Proof.
  intros Hk Hr Hi Hn Hf. unfold xktimer_task.
  etrans; [apply (xktimer_task_from_spec l n Hk Hn fuel 0%nat w Hr Hi); lia|].
  by rewrite Nat.sub_0_r, drop_0.
Qed.

(** After [xktimer_init] a pass of [xktimer_task] polls no timer at all,
    whatever was registered before: the count is back at zero, and the
    pointers still in the array are not looked at. *)
Theorem task_after_init (fuel : nat) w :
  (0 < fuel)%nat ->
  (xktimer_init >> xktimer_task fuel) w = xktimer_init w.
Proof.
  intros Hf. destruct fuel as [|fuel]; [lia|].
  unfold xktimer_init, xktimer_task, bind, put_ref_idx, alloc, put_ref, ret,
    get_ref_idx.
  cbn. destruct XKTIMER_NO_MALLOC; cbn; [done|].
  by destruct (heap_ok w).
Qed.

(** ** The busy wait *)

Lemma clock_reading w c w1 :
  clock w = Some (c, w1) -> exists pend, w1 = with_clock c pend w.
Proof.
  unfold clock. destruct w as [tm ce rf ix cn cp ho cl]; cbn.
  destruct cp as [|c0 rest]; intros [= <- <-].
  - by exists [].
  - by exists rest.
Qed.

Lemma xktimer_clock_pending w c rest :
  CLOCKS_PER_SEC ÷ XKTIMER_RESOLUTION <> 0 ->
  clock_pending w = c :: rest ->
  xktimer_clock w =
    Some (c ÷ (CLOCKS_PER_SEC ÷ XKTIMER_RESOLUTION), with_clock c rest w).
Proof.
  intros Hd Hp. unfold xktimer_clock, bind, clock. rewrite Hp.
  by destruct (Z.eqb_spec (CLOCKS_PER_SEC ÷ XKTIMER_RESOLUTION) 0).
Qed.

Lemma xktimer_clock_frozen v x :
  CLOCKS_PER_SEC ÷ XKTIMER_RESOLUTION <> 0 ->
  clock_pending v = [] ->
  clock_now v = x * (CLOCKS_PER_SEC ÷ XKTIMER_RESOLUTION) ->
  xktimer_clock v = Some (x, v).
Proof.
  intros Hd Hp Hn. unfold xktimer_clock, bind, clock. rewrite Hp, Hn.
  destruct (Z.eqb_spec (CLOCKS_PER_SEC ÷ XKTIMER_RESOLUTION) 0); [done|].
  unfold ret. by rewrite Z.quot_mul.
Qed.

Lemma xktimer_wait_loop_returns until c post :
  CLOCKS_PER_SEC ÷ XKTIMER_RESOLUTION <> 0 ->
  until <= c ÷ (CLOCKS_PER_SEC ÷ XKTIMER_RESOLUTION) ->
  forall pre fuel w,
    clock_pending w = pre ++ c :: post ->
    Forall (fun x => x ÷ (CLOCKS_PER_SEC ÷ XKTIMER_RESOLUTION) < until) pre ->
    (length pre < fuel)%nat ->
    xktimer_wait_loop fuel until w = Some (tt, with_clock c post w).
Proof.
  intros Hd Hc. induction pre as [|x pre IH]; intros fuel w Hp Hpre Hf;
    (destruct fuel as [|fuel]; [cbn in Hf; lia|]); cbn [xktimer_wait_loop].
  - rewrite (bind_Some _ _ _ _ _ (xktimer_clock_pending _ _ _ Hd Hp)).
    by destruct (Z.ltb_spec (c ÷ (CLOCKS_PER_SEC ÷ XKTIMER_RESOLUTION)) until); [lia|].
  - rewrite (bind_Some _ _ _ _ _ (xktimer_clock_pending _ _ _ Hd Hp)).
    apply Forall_cons in Hpre as [Hx Hpre].
    destruct (Z.ltb_spec (x ÷ (CLOCKS_PER_SEC ÷ XKTIMER_RESOLUTION)) until); [|lia].
    erewrite IH; [reflexivity | reflexivity | done |].
    cbn in Hf. lia.
Qed.

(** [xktimer_wait] reads the clock once for its timestamp and then keeps
    reading it; it returns at the first reading that shows at least [ms]
    ticks more than the timestamp, having changed nothing but the clock. *)
Theorem wait_returns ms w c0 pre c post (fuel : nat) :
  CLOCKS_PER_SEC ÷ XKTIMER_RESOLUTION <> 0 ->
  clock_pending w = c0 :: pre ++ c :: post ->
  Forall (fun x => x ÷ (CLOCKS_PER_SEC ÷ XKTIMER_RESOLUTION)
                   < c0 ÷ (CLOCKS_PER_SEC ÷ XKTIMER_RESOLUTION) + ms) pre ->
  c0 ÷ (CLOCKS_PER_SEC ÷ XKTIMER_RESOLUTION) + ms
    <= c ÷ (CLOCKS_PER_SEC ÷ XKTIMER_RESOLUTION) ->
  (length pre < fuel)%nat ->
  xktimer_wait fuel ms w = Some (tt, with_clock c post w).
Proof.
  intros Hd Hp Hpre Hc Hf. unfold xktimer_wait.
  rewrite (bind_Some _ _ _ _ _ (xktimer_clock_pending _ _ _ Hd Hp)).
  by rewrite (xktimer_wait_loop_returns _ c post Hd Hc pre fuel).
Qed.

Lemma xktimer_wait_loop_inv until :
  forall fuel w w',
    xktimer_wait_loop fuel until w = Some (tt, w') ->
    exists c pend, w' = with_clock c pend w /\
      until <= c ÷ (CLOCKS_PER_SEC ÷ XKTIMER_RESOLUTION).
Proof.
  induction fuel as [|fuel IH]; intros w w' H; [done|].
  cbn [xktimer_wait_loop] in H.
  apply bind_inv in H as (now & w1 & Hc & H).
  apply xktimer_clock_inv in Hc as (_ & c & Hc & ->).
  apply clock_reading in Hc as (pend & ->).
  destruct (Z.ltb_spec (c ÷ (CLOCKS_PER_SEC ÷ XKTIMER_RESOLUTION)) until).
  - apply IH in H as (c' & pend' & -> & Hle). by exists c', pend'.
  - injection H as <-. by exists c, pend.
Qed.

(** Whenever [xktimer_wait] returns, the last value it read from the clock
    is at least [ms] ticks past the first, and nothing but the clock has
    changed: no timer, no registry entry, no callback was called. *)
Theorem wait_guarantee (fuel : nat) ms w w' :
  xktimer_wait fuel ms w = Some (tt, w') ->
  exists t0 w1 c pend,
    xktimer_clock w = Some (t0, w1) /\
    w' = with_clock c pend w /\
    t0 + ms <= c ÷ (CLOCKS_PER_SEC ÷ XKTIMER_RESOLUTION).
Proof.
  unfold xktimer_wait. intros H.
  apply bind_inv in H as (t0 & w1 & Hc & H).
  apply xktimer_wait_loop_inv in H as (c & pend & -> & Hle).
  exists t0, w1, c, pend. split; [done|]. split; [|done].
  by apply xktimer_clock_frame in Hc as (c1 & p1 & ->).
Qed.

(** On a clock that has stopped advancing, [xktimer_wait] for a positive
    time never returns, however many times its loop is allowed to run. *)
Theorem wait_on_stopped_clock ms w :
  clock_pending w = [] -> 0 < ms ->
  forall fuel : nat, xktimer_wait fuel ms w = None.
Proof.
  intros Hp Hms fuel. unfold xktimer_wait.
  destruct (Z.eq_dec (CLOCKS_PER_SEC ÷ XKTIMER_RESOLUTION) 0) as [Hd|Hd].
  { apply bind_None. unfold xktimer_clock, bind, clock. rewrite Hp.
    by destruct (Z.eqb_spec (CLOCKS_PER_SEC ÷ XKTIMER_RESOLUTION) 0). }
  assert (Hc : xktimer_clock w =
               Some (clock_now w ÷ (CLOCKS_PER_SEC ÷ XKTIMER_RESOLUTION), w)).
  { unfold xktimer_clock, bind, clock. rewrite Hp.
    by destruct (Z.eqb_spec (CLOCKS_PER_SEC ÷ XKTIMER_RESOLUTION) 0). }
  rewrite (bind_Some _ _ _ _ _ Hc).
  induction fuel as [|fuel IH]; [done|].
  cbn [xktimer_wait_loop]. rewrite (bind_Some _ _ _ _ _ Hc).
  by destruct (Z.ltb_spec (clock_now w ÷ (CLOCKS_PER_SEC ÷ XKTIMER_RESOLUTION))
                 (clock_now w ÷ (CLOCKS_PER_SEC ÷ XKTIMER_RESOLUTION) + ms)); [|lia].
Qed.

(** ** One timer at a time *)

Lemma preserves_wr_other p q u :
  q <> p -> preserves (fun w => timers w !! q) (wr (Some p) u).
Proof.
  intros Hne w a w'. unfold wr. destruct (timers w !! p); [|done].
  intros [= <- <-]. cbv beta. unfold with_timers. cbn [timers].
  by rewrite lookup_insert_ne.
Qed.

Lemma preserves_call q f a :
  callbacks_keep q -> preserves (fun w => timers w !! q) (call f a).
Proof.
  intros Hk w [] w'. unfold call.
  destruct (run_callback _ _ _) as [w0|] eqn:Er; [|done].
  intros [= <-]. by rewrite (Hk _ _ _ _ Er).
Qed.

Lemma preserves_add_ptr q timer :
  preserves (fun w => timers w !! q) (xktimer_add_ptr timer).
Proof. intros w a w' H. by rewrite (xktimer_add_ptr_timers _ _ _ _ H). Qed.

Lemma preserves_get_ref_idx {B} (view : world -> B) : preserves view get_ref_idx.
Proof. by intros w a w' [= <- <-]. Qed.

Ltac other_timer_steps Hne :=
  preserves_steps
    ltac:(first [ apply preserves_wr_other; exact Hne
                | apply preserves_add_ptr
                | apply preserves_get_ref_idx ]).

Lemma xktimer_update_ticks_other p q :
  q <> p -> preserves (fun w => timers w !! q) (xktimer_update_ticks (Some p)).
Proof. intros Hne. unfold xktimer_update_ticks. other_timer_steps Hne. Qed.

(** No operation on one timer writes to another: whatever is done with the
    timer at [p], a timer at a different address [q] that the callbacks
    leave alone is afterwards as it was before. *)
Theorem other_timers_untouched p q o w w' :
  q <> p -> callbacks_keep q ->
  run_op o (Some p) w = Some (tt, w') ->
  timers w' !! q = timers w !! q.
Proof.
  intros Hne Hk H.
  assert (Hut := xktimer_update_ticks_other p q Hne).
  cut (preserves (fun w => timers w !! q) (run_op o (Some p)));
    [intros Hp; exact (Hp _ _ _ H)|].
  clear H. destruct o; cbn [run_op];
    unfold xktimer_add, xktimer_add_dual, xktimer_set_timeout,
      xktimer_set_timeout_dual, xktimer_start, xktimer_stop, xktimer_handle;
    try done;
    preserves_steps
      ltac:(first [ exact Hut
                  | apply preserves_wr_other; exact Hne
                  | apply preserves_add_ptr
                  | apply preserves_get_ref_idx ]).
  case_match; preserves_steps ltac:(by apply preserves_call).
Qed.

(** With positive timeouts and a callback that changes nothing, a second
    [xktimer_handle] on the same timer within the same tick does nothing
    more than the first: a timer that has just fired has its next deadline
    in the future or is disabled. *)
Theorem handle_twice_in_one_tick p t w x :
  CLOCKS_PER_SEC ÷ XKTIMER_RESOLUTION <> 0 ->
  timers w !! p = Some t ->
  0 < timeout t -> 0 < timeout2 t ->
  (forall f, callback t = Some f -> callback_quiet f) ->
  (xktimer_handle (Some p) >> xktimer_handle (Some p)) (at_tick x w) =
    xktimer_handle (Some p) (at_tick x w).
Proof.
  intros Hd Ht H1 H2 Hq.
  pose proof (xktimer_clock_at_tick x w Hd) as Hc.
  assert (Htv : timers (at_tick x w) !! p = Some t) by done.
  destruct (enabled t) eqn:He.
  2:{ by rewrite (bind_Some _ _ _ _ _ (xktimer_handle_disabled _ _ _ Htv He)). }
  destruct (Z.lt_ge_cases x (ticks t)) as [Hlt|Hle].
  { by rewrite (bind_Some _ _ _ _ _ (xktimer_handle_early _ _ _ _ _ Htv He Hc Hlt)). }
  assert (Hagain : forall t' l,
    ticks t' = x + timeout t \/ ticks t' = x + timeout2 t ->
    let v := with_calls l (put p t' (at_tick x w)) in
    xktimer_handle (Some p) v = Some (tt, v)).
  { intros t' l Hticks v.
    assert (Hv : timers v !! p = Some t') by apply put_lookup.
    destruct (enabled t') eqn:He'; [|by apply xktimer_handle_disabled with t'].
    apply xktimer_handle_early with t' x; [done | done | | lia].
    by apply xktimer_clock_frozen. }
  assert (Hend : forall t' st,
    ticks t' = x + timeout t \/ ticks t' = x + timeout2 t ->
    let r := match callback t with
             | Some f => call f st (put p t' (at_tick x w))
             | None => Some (tt, put p t' (at_tick x w))
             end in
    bind (fun _ => r) (fun _ => xktimer_handle (Some p)) (at_tick x w) = r).
  { intros t' st Hticks r. subst r. unfold bind at 1.
    destruct (callback t) as [f|] eqn:Ecb.
    - unfold call. rewrite (Hq f eq_refl).
      apply (Hagain t' (calls (put p t' (at_tick x w)) ++ [(f, st)]) Hticks).
    - apply (Hagain t' (calls (at_tick x w)) Hticks). }
  destruct (Z.eqb_spec (type t) XKTIMER_DUAL_STATE) as [E3|E3];
    [|destruct (Z.eqb_spec (type t) XKTIMER_SINGLE_SHOT) as [E1|E1]].
  - pose proof (xktimer_handle_fire_dual _ _ _ _ _ _ _ Htv He E3 Hc Hle Hc) as Hf.
    cbv zeta in Hf. unfold bind at 1. rewrite Hf.
    eapply (Hend _ _). cbn [ticks]. destruct (state t =? 0); auto.
  - pose proof (xktimer_handle_fire_single_shot _ _ _ _ _ _ _ Htv He E1 Hc Hle Hc) as Hf.
    cbv zeta in Hf. unfold bind at 1. rewrite Hf.
    eapply (Hend _ _). cbn [ticks]. destruct (state t =? 0); auto.
  - pose proof (xktimer_handle_fire_other _ _ _ _ _ _ _ Htv He E1 E3 Hc Hle Hc) as Hf.
    cbv zeta in Hf. unfold bind at 1. rewrite Hf.
    eapply (Hend _ _). cbn [ticks]. destruct (state t =? 0); auto.
Qed.

(** ** A main loop that polls one timer *)

(** One poll that fires: the callback is quiet, so the world after the call
    is the world before it with the call recorded. *)
Lemma poll_ticks_fire p x rest w f st t' :
  callback_quiet f ->
  xktimer_handle (Some p) (at_tick x w) = call f st (put p t' (at_tick x w)) ->
  poll_ticks (Some p) (x :: rest) w =
    match poll_ticks (Some p) rest
            (with_calls (calls w ++ [(f, st)]) (put p t' (at_tick x w))) with
    | Some (l, w'') => Some ((x, st) :: l, w'')
    | None => None
    end.
Proof.
  intros Hq Hh. cbn [poll_ticks]. rewrite Hh. unfold call. rewrite Hq.
  unfold put, at_tick, with_calls, with_timers, with_clock. cbn [calls].
  by rewrite drop_app_length.
Qed.

(** One poll that does not fire leaves all but the clock as it was. *)
Lemma poll_ticks_idle p x rest w :
  xktimer_handle (Some p) (at_tick x w) = Some (tt, at_tick x w) ->
  poll_ticks (Some p) (x :: rest) w = poll_ticks (Some p) rest (at_tick x w).
Proof.
  intros Hh. cbn [poll_ticks]. rewrite Hh.
  unfold at_tick, with_clock. cbn [calls]. rewrite drop_all. cbn.
  by destruct (poll_ticks _ _ _) as [[l w'']|].
Qed.

Lemma poll_ticks_disabled p t ts :
  enabled t = false ->
  forall w, timers w !! p = Some t ->
    exists w', poll_ticks (Some p) ts w = Some ([], w').
Proof.
  intros He. induction ts as [|x ts IH]; intros w Ht; [by eexists|].
  rewrite poll_ticks_idle by (by apply xktimer_handle_disabled with t).
  by apply IH.
Qed.

(** However the main loop spaces its polls, a running single-shot timer
    with a quiet callback is called exactly once in all: at the first poll
    that comes at or after its deadline, and never if there is none. *)
Theorem single_shot_fires_once p t f ts w :
  CLOCKS_PER_SEC ÷ XKTIMER_RESOLUTION <> 0 ->
  timers w !! p = Some t ->
  type t = XKTIMER_SINGLE_SHOT -> enabled t = true ->
  callback t = Some f -> callback_quiet f ->
  exists w',
    poll_ticks (Some p) ts w =
      Some (match head (filter (fun x => ticks t <= x) ts) with
            | Some x => [(x, state t)]
            | None => []
            end, w').
Proof.
  intros Hd Ht Hty He Hcb Hq. revert w Ht.
  induction ts as [|x ts IH]; intros w Ht; [by eexists|].
  pose proof (xktimer_clock_at_tick x w Hd) as Hc.
  assert (Htv : timers (at_tick x w) !! p = Some t) by done.
  destruct (Z.lt_ge_cases x (ticks t)) as [Hlt|Hle].
  - rewrite filter_cons_False by lia.
    rewrite poll_ticks_idle by (by apply xktimer_handle_early with t x).
    by apply IH.
  - rewrite filter_cons_True by done. cbn [head].
    pose proof (xktimer_handle_fire_single_shot _ _ _ _ _ _ _ Htv He Hty Hc Hle Hc) as Hf.
    cbv zeta in Hf. rewrite Hcb in Hf.
    rewrite (poll_ticks_fire _ _ _ _ _ _ _ Hq Hf).
    match goal with
    | |- context [poll_ticks _ ts ?v] =>
        destruct (poll_ticks_disabled p
                    (Timer (type t) false (state t) (timeout t) (timeout2 t)
                           (x + (if state t =? 0 then timeout t else timeout2 t))
                           (Some f)) ts eq_refl v) as [w' Hw']
    end.
    { apply put_lookup. }
    exists w'. by rewrite Hw'.
Qed.

Lemma mod_between T a e :
  0 < T -> a `mod` T = 0 -> 0 < e < T -> (a - e) `mod` T <> 0.
Proof.
  intros HT Ha He H.
  pose proof (Z.div_mod a T ltac:(lia)) as Ea.
  pose proof (Z.div_mod (a - e) T ltac:(lia)) as Eb.
  rewrite Ha in Ea. rewrite H in Eb.
  assert (Hk : e = T * (a `div` T - (a - e) `div` T)) by lia.
  destruct (Z.le_gt_cases (a `div` T - (a - e) `div` T) 0); nia.
Qed.

Lemma periodic_polls_every T r p f :
  CLOCKS_PER_SEC ÷ XKTIMER_RESOLUTION <> 0 -> 0 < T -> callback_quiet f ->
  forall (n : nat) s w t,
    timers w !! p = Some t ->
    type t <> XKTIMER_SINGLE_SHOT -> type t <> XKTIMER_DUAL_STATE ->
    enabled t = true -> state t = 0 -> timeout t = T -> callback t = Some f ->
    (ticks t - r) `mod` T = 0 -> 0 < ticks t - s <= T ->
    exists w',
      poll_ticks (Some p) (seqZ (s + 1) (Z.of_nat n)) w =
        Some ((fun x => (x, 0)) <$>
                filter (fun x => (x - r) `mod` T = 0) (seqZ (s + 1) (Z.of_nat n)), w').
Proof.
  intros Hd HT Hq. induction n as [|n IH];
    intros s w t Ht Hty1 Hty3 He Hst Hto Hcb Hmod Hs; [by eexists|].
  rewrite seqZ_cons by lia.
  replace (Z.pred (Z.of_nat (S n))) with (Z.of_nat n) by lia.
  replace (Z.succ (s + 1)) with ((s + 1) + 1) by lia.
  pose proof (xktimer_clock_at_tick (s + 1) w Hd) as Hc.
  assert (Htv : timers (at_tick (s + 1) w) !! p = Some t) by done.
  destruct (Z.lt_ge_cases (s + 1) (ticks t)) as [Hlt|Hle].
  - rewrite filter_cons_False.
    2:{ replace (s + 1 - r) with ((ticks t - r) - (ticks t - (s + 1))) by lia.
        apply mod_between; [done | done | lia]. }
    rewrite poll_ticks_idle by (by apply xktimer_handle_early with t (s + 1)).
    apply (IH (s + 1) (at_tick (s + 1) w) t); try done. lia.
  - assert (Hx : ticks t = s + 1) by lia.
    rewrite filter_cons_True by (by rewrite <- Hx).
    pose proof (xktimer_handle_fire_other _ _ _ _ _ _ _ Htv He Hty1 Hty3 Hc Hle Hc) as Hf.
    cbv zeta in Hf. rewrite Hcb, Hst, Hto in Hf. cbn [Z.eqb] in Hf.
    rewrite (poll_ticks_fire _ _ _ _ _ _ _ Hq Hf).
    match goal with
    | |- context [poll_ticks _ _ ?v] =>
        destruct (IH (s + 1) v
                    (Timer (type t) true 0 T (timeout2 t) (s + 1 + T) (Some f)))
          as [w' Hw']
    end; try done.
    { apply put_lookup. }
    { cbn [ticks]. replace (s + 1 + T - r) with ((ticks t - r) + 1 * T) by lia.
      by rewrite Z_mod_plus_full. }
    { cbn [ticks]. lia. }
    exists w'. by rewrite Hw'.
Qed.

(** A running timer that is neither single-shot nor dual-state, with a
    positive timeout [T] and a quiet callback, started at tick [t0] and
    polled at every tick after it: the callback is called at the ticks that
    are a multiple of [T] after [t0], with argument 0, and at no other. *)
Theorem periodic_fires_every_period p t f t0 (n : nat) w :
  CLOCKS_PER_SEC ÷ XKTIMER_RESOLUTION <> 0 ->
  timers w !! p = Some t ->
  type t <> XKTIMER_SINGLE_SHOT -> type t <> XKTIMER_DUAL_STATE ->
  callback t = Some f -> callback_quiet f ->
  0 < timeout t ->
  exists w',
    (xktimer_start (Some p) >> poll_ticks (Some p) (seqZ (t0 + 1) (Z.of_nat n)))
      (at_tick t0 w) =
    Some ((fun x => (x, 0)) <$>
            filter (fun x => (x - t0) `mod` timeout t = 0)
                   (seqZ (t0 + 1) (Z.of_nat n)), w').
Proof.
  intros Hd Ht Hty1 Hty3 Hcb Hq HT.
  erewrite bind_Some
    by (apply (xktimer_start_spec p t (at_tick t0 w));
        [exact Ht | by apply xktimer_clock_at_tick]).
  eapply (periodic_polls_every (timeout t) t0 p f Hd HT Hq n t0);
    [apply put_lookup | done | done | done | done | done | done | | ];
    cbn [ticks].
  - replace (t0 + timeout t - t0) with (timeout t) by lia. apply Z_mod_same_full.
  - lia.
Qed.

Lemma mod_succ P a :
  0 < P ->
  ((a + 1) `mod` P = a `mod` P + 1 /\ a `mod` P + 1 < P) \/
  ((a + 1) `mod` P = 0 /\ a `mod` P + 1 = P).
Proof.
  intros HP.
  pose proof (Z.mod_pos_bound a P HP) as Hb.
  pose proof (Z.div_mod a P ltac:(lia)) as Ea.
  destruct (Z.eq_dec (a `mod` P + 1) P) as [E|E].
  - right. split; [|done].
    symmetry. apply (Z.mod_unique _ _ (a `div` P + 1)); [lia | nia].
  - left. split; [|lia].
    symmetry. apply (Z.mod_unique _ _ (a `div` P)); [lia | lia].
Qed.

Lemma dual_state_polls T0 T1 t0 p f :
  CLOCKS_PER_SEC ÷ XKTIMER_RESOLUTION <> 0 -> 0 < T0 -> 0 < T1 ->
  callback_quiet f ->
  forall (n : nat) s w t,
    timers w !! p = Some t ->
    type t = XKTIMER_DUAL_STATE -> enabled t = true ->
    timeout t = T0 -> timeout2 t = T1 -> callback t = Some f ->
    (state t = 0 /\ (s - t0) `mod` (T0 + T1) < T0 /\
     ticks t = s - (s - t0) `mod` (T0 + T1) + T0) \/
    (state t = 1 /\ T0 <= (s - t0) `mod` (T0 + T1) /\
     ticks t = s - (s - t0) `mod` (T0 + T1) + (T0 + T1)) ->
    exists w',
      poll_ticks (Some p) (seqZ (s + 1) (Z.of_nat n)) w =
        Some (omap (fun x =>
                      if bool_decide ((x - t0) `mod` (T0 + T1) = T0) then Some (x, 1)
                      else if bool_decide ((x - t0) `mod` (T0 + T1) = 0) then Some (x, 0)
                      else None)
                   (seqZ (s + 1) (Z.of_nat n)), w').
Proof.
  intros Hd H0 H1 Hq. induction n as [|n IH];
    intros s w t Ht Hty He Hto Hto2 Hcb Hinv; [by eexists|].
  rewrite seqZ_cons by lia.
  replace (Z.pred (Z.of_nat (S n))) with (Z.of_nat n) by lia.
  replace (Z.succ (s + 1)) with ((s + 1) + 1) by lia.
  pose proof (xktimer_clock_at_tick (s + 1) w Hd) as Hc.
  assert (Htv : timers (at_tick (s + 1) w) !! p = Some t) by done.
  pose proof (Z.mod_pos_bound (s - t0) (T0 + T1) ltac:(lia)) as Hb.
  replace (s + 1 - t0) with ((s - t0) + 1) by lia.
  cbn [omap list_omap].
  replace (s + 1 - t0) with ((s - t0) + 1) by lia.
  destruct (mod_succ (T0 + T1) (s - t0) ltac:(lia)) as [[Em Hm]|[Em Hm]];
    rewrite Em;
    destruct Hinv as [(Hst & Ho & Htk)|(Hst & Ho & Htk)].
  - (* first state, the offset moves to o + 1 <= T0 *)
    destruct (Z.eq_dec ((s - t0) `mod` (T0 + T1) + 1) T0) as [Efire|Ewait].
    + rewrite bool_decide_eq_true_2 by done.
      pose proof (xktimer_handle_fire_dual _ _ _ _ _ _ _ Htv He Hty Hc
                    ltac:(lia) Hc) as Hf.
      cbv zeta in Hf. rewrite Hcb, Hst, Hto, Hto2 in Hf. cbn [Z.eqb] in Hf.
      rewrite (poll_ticks_fire _ _ _ _ _ _ _ Hq Hf).
      match goal with
      | |- context [poll_ticks _ _ ?v] =>
          destruct (IH (s + 1) v
                      (Timer (type t) true 1 T0 T1 (s + 1 + T1) (Some f)))
            as [w' Hw']
      end; try done.
      { apply put_lookup. }
      { right. cbn [state ticks].
        replace (s + 1 - t0) with ((s - t0) + 1) by lia. rewrite Em. lia. }
      exists w'. by rewrite Hw'.
    + rewrite bool_decide_eq_false_2 by done.
      rewrite bool_decide_eq_false_2 by lia.
      rewrite poll_ticks_idle
        by (apply xktimer_handle_early with t (s + 1); [done | done | done | lia]).
      apply (IH (s + 1) (at_tick (s + 1) w) t); try done.
      left. replace (s + 1 - t0) with ((s - t0) + 1) by lia. rewrite Em. lia.
  - (* second state, not yet at the end of the cycle *)
    rewrite bool_decide_eq_false_2 by lia.
    rewrite bool_decide_eq_false_2 by lia.
    rewrite poll_ticks_idle
      by (apply xktimer_handle_early with t (s + 1); [done | done | done | lia]).
    apply (IH (s + 1) (at_tick (s + 1) w) t); try done.
    right. replace (s + 1 - t0) with ((s - t0) + 1) by lia. rewrite Em. lia.
  - (* first state cannot be at the end of the cycle *)
    lia.
  - (* second state, the cycle ends *)
    rewrite bool_decide_eq_false_2 by lia.
    rewrite bool_decide_eq_true_2 by done.
    pose proof (xktimer_handle_fire_dual _ _ _ _ _ _ _ Htv He Hty Hc
                  ltac:(lia) Hc) as Hf.
    cbv zeta in Hf. rewrite Hcb, Hst, Hto, Hto2 in Hf. cbn [Z.eqb] in Hf.
    rewrite (poll_ticks_fire _ _ _ _ _ _ _ Hq Hf).
    match goal with
    | |- context [poll_ticks _ _ ?v] =>
        destruct (IH (s + 1) v
                    (Timer (type t) true 0 T0 T1 (s + 1 + T0) (Some f)))
          as [w' Hw']
    end; try done.
    { apply put_lookup. }
    { left. cbn [state ticks].
      replace (s + 1 - t0) with ((s - t0) + 1) by lia. rewrite Em. lia. }
    exists w'. by rewrite Hw'.
Qed.

(** A dual-state timer with positive timeouts [T0] and [T1] and a quiet
    callback, started at tick [t0] and polled at every tick after it: in
    every cycle of [T0 + T1] ticks the callback is called twice, with
    argument 1 when [T0] ticks of the cycle have passed and with argument 0
    when the cycle ends, and at no other tick. *)
Theorem dual_state_fires_in_cycles p t f t0 (n : nat) w :
  CLOCKS_PER_SEC ÷ XKTIMER_RESOLUTION <> 0 ->
  timers w !! p = Some t ->
  type t = XKTIMER_DUAL_STATE ->
  callback t = Some f -> callback_quiet f ->
  0 < timeout t -> 0 < timeout2 t ->
  let P := timeout t + timeout2 t in
  exists w',
    (xktimer_start (Some p) >> poll_ticks (Some p) (seqZ (t0 + 1) (Z.of_nat n)))
      (at_tick t0 w) =
    Some (omap (fun x =>
                  if bool_decide ((x - t0) `mod` P = timeout t) then Some (x, 1)
                  else if bool_decide ((x - t0) `mod` P = 0) then Some (x, 0)
                  else None)
               (seqZ (t0 + 1) (Z.of_nat n)), w').
Proof.
  intros Hd Ht Hty Hcb Hq H0 H1 P.
  erewrite bind_Some
    by (apply (xktimer_start_spec p t (at_tick t0 w));
        [exact Ht | by apply xktimer_clock_at_tick]).
  eapply (dual_state_polls (timeout t) (timeout2 t) t0 p f Hd H0 H1 Hq n t0);
    [apply put_lookup | done | done | done | done | done | ].
  left. cbn [state ticks]. rewrite Z.sub_diag, Z.mod_0_l by lia. lia.
Qed.

End XKTimer.


(** ** The theorems at concrete inputs

    The platform is a POSIX one, where [CLOCKS_PER_SEC] is one million, and
    the build is the one with [XKTIMER_NO_MALLOC]. *)

Lemma register_postcondition_witness :
  exists w',
    xktimer_add 1000000 true (Some 1%positive) XKTIMER_PERIODIC 500 None
                (at_tick 1000000 250 (boot 1)) = Some (true, w') /\
    exists p t now w1,
      Some 1%positive = Some p /\
      xktimer_clock 1000000 (at_tick 1000000 250 (boot 1)) = Some (now, w1) /\
      timers w' !! p = Some t /\ enabled t = false /\ ticks t = now + 500.
Proof.
  eexists. split; [vm_compute; reflexivity|].
  apply (register_postcondition 1000000 true (Some 1%positive)
           XKTIMER_PERIODIC 500 0 None (at_tick 1000000 250 (boot 1))).
  left. vm_compute. reflexivity.
Defined.

(** Thirty registrations fill the registry, and the thirty-first is the
    call that [register_beyond_capacity] is about. *)
Lemma register_beyond_capacity_witness :
  register_all 1000000 true (map Pos.of_nat (seq 1 30)) XKTIMER_PERIODIC 500 (boot 31)
    = Some (replicate 30 true, full_registry XKTIMER_PERIODIC 500) /\
  xktimer_add 1000000 true (Some 31%positive) XKTIMER_PERIODIC 500 None
              (full_registry XKTIMER_PERIODIC 500)
    = Some (false, full_registry XKTIMER_PERIODIC 500) /\
  xktimer_add_dual 1000000 true (Some 31%positive) 500 300 None
                   (full_registry XKTIMER_PERIODIC 500)
    = Some (false, full_registry XKTIMER_PERIODIC 500).
Proof.
  split; [vm_compute; reflexivity|].
  apply (register_beyond_capacity 1000000 true (Some 31%positive)
           XKTIMER_PERIODIC 500 300 None (full_registry XKTIMER_PERIODIC 500)).
  reflexivity.
Defined.

Lemma stop_clears_enabled_only_witness :
  exists t',
    xktimer_stop (Some 1%positive) dual_state_started =
      Some (tt, with_timers (<[1%positive := t']> (timers dual_state_started))
                            dual_state_started) /\
    enabled t' = false /\ state t' = 0 /\ ticks t' = 700 /\
    timeout t' = 700 /\ timeout2 t' = 300 /\
    type t' = XKTIMER_DUAL_STATE /\ callback t' = Some 9%positive.
Proof.
  apply (stop_clears_enabled_only 1%positive
           (Timer XKTIMER_DUAL_STATE true 0 700 300 700 (Some 9%positive))
           dual_state_started).
  vm_compute. reflexivity.
Defined.

(** The dual-state timer polled at tick 5000, long after its deadline of
    700: one call, and the next deadline counted from tick 5000. *)
Lemma handle_expired_witness :
  exists t',
    state t' = 1 /\ ticks t' = 5000 + 300 /\
    xktimer_handle 1000000 quiet (Some 1%positive)
                   (at_tick 1000000 5000 dual_state_started)
      = Some (tt, with_calls [(9%positive, state t')]
                    (put 1%positive t' (at_tick 1000000 5000 dual_state_started))).
Proof.
  destruct (handle_expired 1000000 quiet 1%positive
              (Timer XKTIMER_DUAL_STATE true 0 700 300 700 (Some 9%positive))
              (at_tick 1000000 5000 dual_state_started)
              5000 (at_tick 1000000 5000 dual_state_started)
              5000 (at_tick 1000000 5000 dual_state_started))
    as (t' & Hs & Hd & _ & _ & _ & _ & H);
    [vm_compute; reflexivity | reflexivity | vm_compute; reflexivity
    | simpl; lia | vm_compute; reflexivity |].
  exists t'. split; [exact Hs|]. split.
  - etrans; [exact Hd|]. replace (state t') with 1 by (symmetry; exact Hs). reflexivity.
  - etrans; [exact H|]. reflexivity.
Defined.

Lemma single_shot_life_witness :
  xktimer_start 1000000 (Some 1%positive) single_shot_started =
    Some (tt, single_shot_started) /\
  xktimer_handle 1000000 quiet (Some 1%positive) (at_tick 1000000 500 single_shot_started)
    = Some (tt, at_tick 1000000 500 single_shot_started) /\
  xktimer_handle 1000000 quiet (Some 1%positive) (at_tick 1000000 1000 single_shot_started)
    = Some (tt, with_calls [(9%positive, 0)]
                  (put 1%positive
                       (Timer XKTIMER_SINGLE_SHOT false 0 1000 0 2000 (Some 9%positive))
                       (at_tick 1000000 1000 single_shot_started))).
Proof.
  destruct (single_shot_life 1000000 quiet 1%positive
              (Timer XKTIMER_SINGLE_SHOT true 0 1000 0 1000 (Some 9%positive))
              single_shot_started 0 single_shot_started)
    as (Hs & Hearly & Hfire & _);
    [vm_compute; reflexivity | reflexivity | vm_compute; reflexivity |].
  split_and!.
  - etrans; [exact Hs | vm_compute; reflexivity].
  - apply (Hearly (at_tick 1000000 500 single_shot_started) 500);
      [vm_compute; reflexivity | vm_compute; reflexivity | simpl; lia].
  - destruct (Hfire (at_tick 1000000 1000 single_shot_started) 1000
                (at_tick 1000000 1000 single_shot_started) 1000
                (at_tick 1000000 1000 single_shot_started)) as [H _];
      [vm_compute; reflexivity | vm_compute; reflexivity | simpl; lia
      | vm_compute; reflexivity |].
    etrans; [exact H | vm_compute; reflexivity].
Defined.

(** The example of the specification: a single-shot timer of 1000 ms
    started at tick 0 and checked at ticks 500, 1000, 1500 and 3000 calls
    its callback once, at tick 1000, with argument 0. *)
Example single_shot_example :
  fst <$> poll_ticks 1000000 quiet (Some 1%positive) [500; 1000; 1500; 3000]
            single_shot_started
  = Some [(1000, 0)].
Proof. vm_compute. reflexivity. Qed.

Lemma unlisted_type_as_periodic_witness :
  exists w',
    xktimer_add 1000000 true (Some 1%positive) 7 500 (Some 9%positive) (boot 1)
      = Some (true, w') /\
    exists t', timers w' !! 1%positive = Some t' /\ type t' = 7 /\ state t' = 0 /\
               timeout t' = 500 /\ callback t' = Some 9%positive.
Proof.
  eexists. split; [vm_compute; reflexivity|].
  destruct (unlisted_type_as_periodic 1000000 true quiet 1%positive 7 500
              (Some 9%positive)) as [H _]; [done | done | done |].
  apply (H (boot 1)). vm_compute. reflexivity.
Defined.

(** A timer of the unlisted type 7 with a timeout of 500 ms, started at tick
    0 and polled at every tick, keeps firing every 500 ticks. *)
Example unlisted_type_example :
  fst <$> poll_ticks 1000000 quiet (Some 1%positive) (seqZ 1 1600)
            (put 1%positive (Timer 7 true 0 500 0 500 (Some 9%positive)) (boot 1))
  = Some [(500, 0); (1000, 0); (1500, 0)].
Proof. vm_compute. reflexivity. Qed.

Lemma periodic_helper_witness :
  xktimer_periodic 1000000 (Some 1%positive) 4 (at_tick 1000000 3 (boot 0))
    = Some (false, at_tick 1000000 3 (boot 0)) /\
  exists w',
    periodic_polls 1000000 (Some 1%positive) 4 (seqZ 1 9) (at_tick 1000000 3 (boot 0))
      = Some ([false; false; false; true; false; false; false; true; false], w').
Proof.
  destruct (periodic_helper 1000000 1%positive 0 4 (at_tick 1000000 3 (boot 0))
              3 (at_tick 1000000 3 (boot 0))) as (_ & Hf & Hp);
    [vm_compute; reflexivity | vm_compute; reflexivity
    | vm_compute; discriminate | lia | vm_compute; discriminate |].
  split.
  - apply Hf. simpl. lia.
  - destruct (Hp ltac:(lia) 9%nat ltac:(vm_compute; discriminate)) as [w' Hw'].
    exists w'. exact Hw'.
Defined.

(** A tick variable holding the largest [clock_t], a period of 1, the
    clock at zero: no tick has elapsed since the reference, and yet
    [xktimer_periodic] returns true and resets the variable, because the
    sum it compares with has wrapped around. *)
Lemma periodic_helper_wraps :
  (cells (with_cells {[ 1%positive := CLOCK_T_MAX ]} (boot 0)) !! 1%positive
     = Some CLOCK_T_MAX) /\
  (xktimer_clock 1000000 (with_cells {[ 1%positive := CLOCK_T_MAX ]} (boot 0))
     = Some (0, with_cells {[ 1%positive := CLOCK_T_MAX ]} (boot 0))) /\
  (0 - CLOCK_T_MAX < 1) /\
  (xktimer_periodic 1000000 (Some 1%positive) 1
                    (with_cells {[ 1%positive := CLOCK_T_MAX ]} (boot 0))
     = Some (true, with_cells {[ 1%positive := 0 ]} (boot 0))).
Proof. vm_compute. by split_and!. Qed.


(** ** The dual-state example of xktimer.h *)

(** C1.  The header's dual-state example with timeouts 700 and 300 ms,
    polled at every tick up to 2000: the callback is called at ticks 700,
    1000, 1700 and 2000, and the arguments it gets are 1, 0, 1, 0, where
    xktimer.h promises 0 for the first timeout and 1 for the second. *)
Theorem dual_state_phases :
  fst <$> dual_state_example 1000000 true quiet 700 300 9%positive 2000 (boot 1)
  = Some [(700, 1); (1000, 0); (1700, 1); (2000, 0)].
Proof. vm_compute. reflexivity. Qed.

(** ** The further properties at concrete inputs *)

Lemma set_timeout_dual_resets_witness :
  exists t',
    xktimer_set_timeout_dual 1000000 (Some 1%positive) 1500 900
                             (at_tick 1000000 800 dual_state_second)
      = Some (tt, put 1%positive t' (at_tick 1000000 800 dual_state_second)) /\
    state t' = 0 /\ timeout t' = 1500 /\ timeout2 t' = 900 /\
    ticks t' = 800 + 1500 /\
    enabled t' = true /\ type t' = XKTIMER_DUAL_STATE /\
    callback t' = Some 9%positive.
Proof.
  apply (set_timeout_dual_resets 1000000 1%positive
           (Timer XKTIMER_DUAL_STATE true 1 700 300 1000 (Some 9%positive))
           (at_tick 1000000 800 dual_state_second) 1500 900 800
           (at_tick 1000000 800 dual_state_second));
    vm_compute; reflexivity.
Defined.

Lemma set_timeout_keeps_phase_witness :
  exists t',
    xktimer_set_timeout 1000000 (Some 1%positive) 5000
                        (at_tick 1000000 800 dual_state_second)
      = Some (tt, put 1%positive t' (at_tick 1000000 800 dual_state_second)) /\
    timeout t' = 5000 /\ ticks t' = 800 + 300.
Proof.
  destruct (set_timeout_keeps_phase 1000000 1%positive
              (Timer XKTIMER_DUAL_STATE true 1 700 300 1000 (Some 9%positive))
              (at_tick 1000000 800 dual_state_second) 5000 800
              (at_tick 1000000 800 dual_state_second))
    as (t' & H & Hto & _ & _ & _ & _ & Htk);
    [vm_compute; reflexivity | vm_compute; reflexivity |].
  exists t'. split; [exact H|]. split; [exact Hto|]. apply Htk. discriminate.
Defined.

Lemma timeout_round_trip_witness :
  (exists w',
     bind (xktimer_set_timeout 1000000 (Some 1%positive) 5000)
          (fun _ => xktimer_timeout (Some 1%positive)) dual_state_started
       = Some (5000, w')) /\
  (exists w',
     bind (xktimer_set_timeout_dual 1000000 (Some 1%positive) 1500 900)
          (fun _ => bind (xktimer_timeout (Some 1%positive))
             (fun x => bind (xktimer_timeout2 (Some 1%positive))
                (fun y => ret (x, y)))) dual_state_started
       = Some ((1500, 900), w')).
Proof.
  destruct (timeout_round_trip 1000000 1%positive
              (Timer XKTIMER_DUAL_STATE true 0 700 300 700 (Some 9%positive))
              dual_state_started 0 dual_state_started) as [H1 H2];
    [vm_compute; reflexivity | vm_compute; reflexivity |].
  split; [apply (H1 5000) | apply (H2 1500 900)].
Defined.

Lemma running_reflects_start_stop_witness :
  (exists w',
     bind (xktimer_start 1000000 (Some 1%positive))
          (fun _ => xktimer_running (Some 1%positive)) (boot 1) = Some (true, w')) /\
  (exists w',
     bind (xktimer_stop (Some 1%positive))
          (fun _ => xktimer_running (Some 1%positive)) dual_state_started
       = Some (false, w')).
Proof.
  split.
  - destruct (running_reflects_start_stop 1000000 true 1%positive blank
                (boot 1) 0 (boot 1)) as (H & _ & _);
      [vm_compute; reflexivity | vm_compute; reflexivity | exact H].
  - destruct (running_reflects_start_stop 1000000 true 1%positive
                (Timer XKTIMER_DUAL_STATE true 0 700 300 700 (Some 9%positive))
                dual_state_started 0 dual_state_started) as (_ & H & _);
      [vm_compute; reflexivity | vm_compute; reflexivity | exact H].
Defined.

Lemma stop_start_restarts_witness :
  bind (xktimer_stop (Some 1%positive)) (fun _ => xktimer_start 1000000 (Some 1%positive))
       (at_tick 1000000 800 dual_state_second)
    = Some (tt, put 1%positive
                    (Timer XKTIMER_DUAL_STATE true 0 700 300 1500 (Some 9%positive))
                    (at_tick 1000000 800 dual_state_second)).
Proof.
  destruct (stop_start_restarts 1000000 1%positive
              (Timer XKTIMER_DUAL_STATE true 1 700 300 1000 (Some 9%positive))
              (at_tick 1000000 800 dual_state_second) 800
              (at_tick 1000000 800 dual_state_second)) as [H1 H2];
    [vm_compute; reflexivity | vm_compute; reflexivity |].
  etrans; [exact H1|]. etrans; [exact H2|]. reflexivity.
Defined.

(** A thousand clock units in a tick and the clock standing at 1000999,
    which is still tick 1000: the answer is the deadline 2000 less
    1000999. *)
Lemma next_timeout_after_start_witness :
  bind (xktimer_start 1000000 (Some 1%positive))
       (fun _ => xktimer_next_timeout (Some 1%positive))
       (with_clock 1000999 [] single_shot_started)
    = Some (-998999,
            put 1%positive
                (Timer XKTIMER_SINGLE_SHOT true 0 1000 0 2000 (Some 9%positive))
                (with_clock 1000999 [] single_shot_started)).
Proof.
  apply (next_timeout_after_start 1000000 1%positive
           (Timer XKTIMER_SINGLE_SHOT true 0 1000 0 1000 (Some 9%positive))
           (with_clock 1000999 [] single_shot_started)
           1000999 (with_clock 1000999 [] single_shot_started)
           1000999 (with_clock 1000999 [] single_shot_started));
    [vm_compute; reflexivity | vm_compute; discriminate | reflexivity | reflexivity
    | lia | lia].
Defined.

(** Thirty-two registrations of three timers in turn. *)
Lemma register_all_in_order_witness :
  exists w',
    bind (xktimer_init true)
         (fun _ => register_all 1000000 true
                     (concat (replicate 10 [1%positive; 2%positive; 3%positive])
                      ++ [1%positive; 2%positive])
                     XKTIMER_PERIODIC 500) (boot 3)
      = Some (replicate 30 true ++ [false; false], w') /\
    xktimer_ref_idx w' = 30 /\
    xktimer_ref w' = Some (Some <$> concat (replicate 10 [1%positive; 2%positive; 3%positive])).
Proof.
  destruct (register_all_in_order 1000000 true
              (concat (replicate 10 [1%positive; 2%positive; 3%positive])
                      ++ [1%positive; 2%positive])
              XKTIMER_PERIODIC 500 (boot 3) (replicate 30 None))
    as (w' & H & Hi & Hr).
  - reflexivity.
  - vm_compute. discriminate.
  - reflexivity.
  - reflexivity.
  - intros p Hp. vm_compute in Hp.
    repeat (apply elem_of_cons in Hp as [->|Hp]; [vm_compute; eauto|]).
    by apply elem_of_nil in Hp.
  - exists w'. split; [exact H|]. split; [exact Hi|]. exact Hr.
Defined.

Lemma add_without_registry_witness :
  exists w',
    xktimer_add 1000000 false (Some 1%positive) XKTIMER_PERIODIC 500 None no_registry
      = Some (true, w') /\
    xktimer_ref w' = None /\ xktimer_ref_idx w' = 0.
Proof.
  destruct (add_without_registry 1000000 false 1%positive blank no_registry
              XKTIMER_PERIODIC 500 None 0 no_registry)
    as (w' & H & Hr & Hi & _);
    [reflexivity | vm_compute; reflexivity | reflexivity | vm_compute; reflexivity
    | vm_compute; reflexivity |].
  exists w'. split; [exact H|]. split; [exact Hr | exact Hi].
Defined.

Lemma add_realloc_failure_faults_witness :
  xktimer_add 1000000 false (Some 1%positive) XKTIMER_PERIODIC 500 None
              (with_heap_ok [false] fresh_registry) = None.
Proof.
  apply (add_realloc_failure_faults 1000000 false 1%positive blank
           (with_heap_ok [false] fresh_registry) XKTIMER_PERIODIC 500 None
           [None] []);
    [reflexivity | vm_compute; reflexivity | reflexivity
    | cbn; unfold XKTIMER_MAX_TIMERS; lia | reflexivity].
Defined.

Lemma add_grows_registry_witness :
  exists w',
    xktimer_add 1000000 false (Some 1%positive) XKTIMER_PERIODIC 500 None fresh_registry
      = Some (true, w') /\
    xktimer_ref_idx w' = 1 /\ xktimer_ref w' = Some [Some 1%positive].
Proof.
  apply (add_grows_registry 1000000 false 1%positive blank fresh_registry
           XKTIMER_PERIODIC 500 None [None] 0%nat);
    [reflexivity | vm_compute; discriminate | vm_compute; reflexivity | reflexivity
    | reflexivity | lia | simpl; lia | reflexivity].
Defined.

Lemma quiet_keeps_registry : callbacks_keep_registry quiet.
Proof. by intros f a w w' [= <-]. Qed.

Lemma quiet_is_quiet f : callback_quiet quiet f.
Proof. by intros a w. Qed.

(** One pass over the two timers at tick 1000: both have expired, and
    their callbacks are called in the order of registration. *)
Lemma task_handles_in_order_witness :
  xktimer_task 1000000 quiet 3 (at_tick 1000000 1000 two_timers)
    = handle_all 1000000 quiet [Some 1%positive; Some 2%positive]
                 (at_tick 1000000 1000 two_timers) /\
  calls <$> (snd <$> xktimer_task 1000000 quiet 3 (at_tick 1000000 1000 two_timers))
    = Some [(9%positive, 1); (8%positive, 0)].
Proof.
  split; [|vm_compute; reflexivity].
  apply (task_handles_in_order 1000000 quiet
           (Some 1%positive :: Some 2%positive :: replicate 28 None) 2 3
           (at_tick 1000000 1000 two_timers) quiet_keeps_registry);
    [reflexivity | reflexivity | simpl; lia | lia].
Defined.

Lemma task_after_init_witness :
  bind (xktimer_init true) (fun _ => xktimer_task 1000000 quiet 5)
       (at_tick 1000000 1000 two_timers)
    = xktimer_init true (at_tick 1000000 1000 two_timers).
Proof.
  apply (task_after_init 1000000 true quiet 5 (at_tick 1000000 1000 two_timers)). lia.
Defined.

(** A wait of 3 ms on a clock read every half millisecond. *)
Lemma wait_returns_witness :
  xktimer_wait 1000000 10 3
               (with_clock 0 [2000; 2500; 3000; 3500; 4000; 4500; 5000; 5500] (boot 0))
    = Some (tt, with_clock 5000 [5500] (boot 0)).
Proof.
  apply (wait_returns 1000000 3
           (with_clock 0 [2000; 2500; 3000; 3500; 4000; 4500; 5000; 5500] (boot 0))
           2000 [2500; 3000; 3500; 4000; 4500] 5000 [5500] 10).
  - vm_compute. discriminate.
  - reflexivity.
  - repeat constructor; vm_compute; reflexivity.
  - vm_compute. discriminate.
  - simpl. lia.
Defined.

Lemma wait_guarantee_witness :
  exists t0 w1 c pend,
    xktimer_clock 1000000 (with_clock 0 [2000; 3000; 4000; 5000; 6000] (boot 0))
      = Some (t0, w1) /\
    with_clock 5000 [6000] (boot 0)
      = with_clock c pend (with_clock 0 [2000; 3000; 4000; 5000; 6000] (boot 0)) /\
    t0 + 3 <= c ÷ (1000000 ÷ XKTIMER_RESOLUTION).
Proof.
  apply (wait_guarantee 1000000 10 3
           (with_clock 0 [2000; 3000; 4000; 5000; 6000] (boot 0))
           (with_clock 5000 [6000] (boot 0))).
  vm_compute. reflexivity.
Defined.

Lemma wait_on_stopped_clock_witness :
  xktimer_wait 1000000 1000 1 (boot 0) = None.
Proof.
  apply (wait_on_stopped_clock 1000000 1 (boot 0)); [reflexivity | lia].
Defined.

(** The pass over the two timers at tick 1000, seen from the second timer:
    handling the first leaves it alone. *)
Lemma other_timers_untouched_witness :
  exists w',
    run_op 1000000 true quiet OpHandle (Some 1%positive)
           (at_tick 1000000 1000 two_timers) = Some (tt, w') /\
    timers w' !! 2%positive = timers two_timers !! 2%positive.
Proof.
  eexists. split; [vm_compute; reflexivity|].
  eapply (other_timers_untouched 1000000 true quiet 1%positive 2%positive OpHandle
            (at_tick 1000000 1000 two_timers)).
  - discriminate.
  - intros f a w w' [= <-]. reflexivity.
  - vm_compute. reflexivity.
Defined.

Lemma handle_twice_in_one_tick_witness :
  bind (xktimer_handle 1000000 quiet (Some 1%positive))
       (fun _ => xktimer_handle 1000000 quiet (Some 1%positive))
       (at_tick 1000000 700 dual_state_started)
    = xktimer_handle 1000000 quiet (Some 1%positive)
                     (at_tick 1000000 700 dual_state_started).
Proof.
  apply (handle_twice_in_one_tick 1000000 quiet 1%positive
           (Timer XKTIMER_DUAL_STATE true 0 700 300 700 (Some 9%positive))
           dual_state_started 700).
  - vm_compute. discriminate.
  - vm_compute. reflexivity.
  - simpl. lia.
  - simpl. lia.
  - intros f _. apply quiet_is_quiet.
Defined.

(** Polls at irregular ticks: the single-shot timer of 1000 ms is called at
    tick 1234, the first poll past its deadline, and never again. *)
Lemma single_shot_fires_once_witness :
  exists w',
    poll_ticks 1000000 quiet (Some 1%positive) [10; 999; 1234; 1500; 9000]
               single_shot_started
      = Some ([(1234, 0)], w').
Proof.
  apply (single_shot_fires_once 1000000 quiet 1%positive
           (Timer XKTIMER_SINGLE_SHOT true 0 1000 0 1000 (Some 9%positive))
           9%positive [10; 999; 1234; 1500; 9000] single_shot_started).
  - vm_compute. discriminate.
  - vm_compute. reflexivity.
  - reflexivity.
  - reflexivity.
  - reflexivity.
  - apply quiet_is_quiet.
Defined.

Lemma periodic_fires_every_period_witness :
  exists w',
    bind (xktimer_start 1000000 (Some 1%positive))
         (fun _ => poll_ticks 1000000 quiet (Some 1%positive) (seqZ (100 + 1) (Z.of_nat 10)))
         (at_tick 1000000 100
            (put 1%positive (Timer XKTIMER_PERIODIC false 0 4 0 0 (Some 9%positive))
                 (boot 1)))
      = Some ([(104, 0); (108, 0)], w').
Proof.
  apply (periodic_fires_every_period 1000000 quiet 1%positive
           (Timer XKTIMER_PERIODIC false 0 4 0 0 (Some 9%positive)) 9%positive 100 10%nat
           (put 1%positive (Timer XKTIMER_PERIODIC false 0 4 0 0 (Some 9%positive))
                (boot 1))).
  - vm_compute. discriminate.
  - vm_compute. reflexivity.
  - discriminate.
  - discriminate.
  - reflexivity.
  - apply quiet_is_quiet.
  - simpl. lia.
Defined.

Lemma dual_state_fires_in_cycles_witness :
  exists w',
    bind (xktimer_start 1000000 (Some 1%positive))
         (fun _ => poll_ticks 1000000 quiet (Some 1%positive) (seqZ (100 + 1) (Z.of_nat 12)))
         (at_tick 1000000 100
            (put 1%positive (Timer XKTIMER_DUAL_STATE false 0 3 2 0 (Some 9%positive))
                 (boot 1)))
      = Some ([(103, 1); (105, 0); (108, 1); (110, 0)], w').
Proof.
  apply (dual_state_fires_in_cycles 1000000 quiet 1%positive
           (Timer XKTIMER_DUAL_STATE false 0 3 2 0 (Some 9%positive)) 9%positive 100 12%nat
           (put 1%positive (Timer XKTIMER_DUAL_STATE false 0 3 2 0 (Some 9%positive))
                (boot 1))).
  - vm_compute. discriminate.
  - vm_compute. reflexivity.
  - reflexivity.
  - reflexivity.
  - apply quiet_is_quiet.
  - simpl. lia.
  - simpl. lia.
Defined.
